(** * Authorization policy and differential test oracle

    A shallow embedding of the file-sharing authorization project:
    - [policy_model.py]: the ground-truth evaluator and the scenario
      generator;
    - [file_sharing_api.py] and [server.py]: the subject under test;
    - [api_client.py] and [test_framework.py]: the oracle and the result
      aggregation.

    Python strings are [string], Python integers are [Z], dictionaries with
    a fixed key set are records, the other dictionaries are [gmap]s. *)

From Stdlib Require Import ZArith Bool.
From stdpp Require Import base strings pretty list gmap.

Local Open Scope string_scope.
Local Open Scope Z_scope.

(** ** Python primitives used by the sources *)

(** [x == y] on two [str] values. *)
Definition py_eq (x y : string) : bool := String.eqb x y.

(** [x in [y1, ..., yn]] on a list of [str]: some element compares equal. *)
Definition py_in (x : string) (ys : list string) : bool :=
  existsb (py_eq x) ys.

Lemma py_eq_spec x y : reflect (x = y) (py_eq x y).
Proof. unfold py_eq. apply String.eqb_spec. Qed.

Lemma py_eq_true x y : py_eq x y = true <-> x = y.
Proof. unfold py_eq. apply String.eqb_eq. Qed.

Lemma py_eq_false x y : py_eq x y = false <-> x <> y.
Proof. unfold py_eq. apply String.eqb_neq. Qed.

Lemma py_eq_refl x : py_eq x x = true.
Proof. unfold py_eq. apply String.eqb_refl. Qed.

(** ** policy_model.py *)

Module Policy.

(** One entry of the human-readable rule table. *)
Record Rule := {
  rule_id : Z;
  description : string;
  condition : string;
  result : string;
  priority : string
}.

(** [AuthorizationPolicy._define_rules] *)
Definition _define_rules : list Rule :=
  [ {| rule_id := 1;
       description := "Owner has full access to their files";
       condition := "audience == 'owner'";
       result := "ALLOW all actions";
       priority := "HIGHEST" |};
    {| rule_id := 2;
       description := "Public files are read-only for everyone";
       condition := "visibility == 'public' AND action == 'read'";
       result := "ALLOW";
       priority := "HIGH" |};
    {| rule_id := 3;
       description := "Org-public files are read-only for org members";
       condition := "visibility == 'org_public' AND same_org AND action == 'read'";
       result := "ALLOW";
       priority := "HIGH" |};
    {| rule_id := 4;
       description := "Collaborators can read and edit";
       condition := "has_collaboration_permission AND action IN ['read', 'edit']";
       result := "ALLOW";
       priority := "MEDIUM" |};
    {| rule_id := 5;
       description := "Collaborators cannot delete or share";
       condition := "has_collaboration_permission AND action IN ['delete', 'share']";
       result := "DENY";
       priority := "MEDIUM" |};
    {| rule_id := 6;
       description := "Private/shared files deny all other access";
       condition := "visibility IN ['private', 'shared'] AND no explicit permission";
       result := "DENY";
       priority := "LOW" |};
    {| rule_id := 7;
       description := "Default deny all";
       condition := "default";
       result := "DENY";
       priority := "LOWEST" |} ].

(** The policy object: its only attribute is the rule table. *)
Record AuthorizationPolicy := { rules : list Rule }.

(** [AuthorizationPolicy.__init__] *)
Definition init : AuthorizationPolicy := {| rules := _define_rules |}.

(** [AuthorizationPolicy.evaluate]: the seven textual rules of the source,
    tried top-down; the first one whose guard holds returns. *)
Definition evaluate (self : AuthorizationPolicy)
    (audience visibility action : string)
    (is_owner has_collaboration_permission same_org : bool) : string :=
  (* RULE 1 *)
  if is_owner || py_eq audience "owner" then "ALLOW"
  (* RULE 2 *)
  else if py_eq visibility "public" then
    if py_eq action "read" then "ALLOW" else "DENY"
  (* RULE 3 *)
  else if py_eq visibility "org_public" then
    if same_org && py_eq action "read" then "ALLOW" else "DENY"
  (* RULE 4 *)
  else if has_collaboration_permission then
    if py_in action ["read"; "edit"] then "ALLOW" else "DENY"
  (* RULE 5 *)
  else if py_eq visibility "shared" then "DENY"
  (* RULE 6 *)
  else if py_eq visibility "private" then "DENY"
  (* RULE 7 *)
  else "DENY".

(** A scenario dictionary; its eight keys are fixed. *)
Record Scenario := {
  scenario_id : Z;
  audience : string;
  visibility : string;
  action : string;
  is_owner : bool;
  has_collaboration : bool;
  same_org : bool;
  expected_result : string
}.

Definition audiences : list string :=
  ["owner"; "collaborator"; "org_member"; "external"].
Definition visibilities : list string :=
  ["private"; "shared"; "org_public"; "public"].
Definition actions : list string :=
  ["read"; "edit"; "delete"; "share"].

(** Body of the innermost loop: the state is the list built so far and the
    running [scenario_id]. *)
Definition emit (self : AuthorizationPolicy) (audience visibility : string)
    (st : list Scenario * Z) (action : string) : list Scenario * Z :=
  let '(scenarios, scenario_id) := st in
  let is_owner := py_eq audience "owner" in
  let has_collab := py_eq audience "collaborator" in
  let same_org := py_in audience ["owner"; "org_member"] in
  let expected :=
    evaluate self audience visibility action is_owner has_collab same_org in
  ((scenarios ++
     [ {| scenario_id := scenario_id;
          audience := audience;
          visibility := visibility;
          action := action;
          is_owner := is_owner;
          has_collaboration := has_collab;
          same_org := same_org;
          expected_result := expected |} ])%list,
   scenario_id + 1).

(** [AuthorizationPolicy.generate_all_scenarios]: three nested [for] loops
    threading the list and the counter. *)
Definition generate_all_scenarios (self : AuthorizationPolicy)
    : list Scenario :=
  fst
    (fold_left
       (fun st audience =>
          fold_left
            (fun st visibility =>
               fold_left (emit self audience visibility) actions st)
            visibilities st)
       audiences ([], 1)).

End Policy.

(** ** Values exchanged with the subject *)

(** A decoded JSON document (a Python [dict], [list], [str], ...). An
    object keeps its members as an association list. *)
#[local] Unset Elimination Schemes.
Inductive json :=
| JNull
| JBool (b : bool)
| JNum (n : Z)
| JStr (s : string)
| JArr (items : list json)
| JObj (fields : list (string * json)).
#[local] Set Elimination Schemes.

(** [d.get(k)] on the members of an object. *)
Fixpoint assoc (k : string) (fields : list (string * json)) : option json :=
  match fields with
  | [] => None
  | (k', v) :: rest => if py_eq k k' then Some v else assoc k rest
  end.

(** [bool(v)]: Python truthiness of a decoded value. *)
Definition truthy (v : json) : bool :=
  match v with
  | JNull => false
  | JBool b => b
  | JNum n => negb (n =? 0)
  | JStr s => negb (py_eq s EmptyString)
  | JArr items => match items with [] => false | _ => true end
  | JObj fields => match fields with [] => false | _ => true end
  end.

(** Python exceptions that the modelled code can raise or let through. *)
Inductive exn :=
| KeyError (key : string)
| TypeError
| AttributeError
| RequestException (what : string).

(** The result of running a piece of Python: a value or a raised
    exception. *)
Inductive outcome (A : Type) :=
| Returned (a : A)
| Raised (e : exn).
Arguments Returned {A} a.
Arguments Raised {A} e.

(** Stateful, fallible code: the state reached is kept when an exception
    is raised. *)
Definition M (S A : Type) : Type := S -> outcome A * S.

Definition ret {S A} (a : A) : M S A := fun s => (Returned a, s).

Definition raise {S A} (e : exn) : M S A := fun s => (Raised e, s).

Definition bind {S A B} (m : M S A) (k : A -> M S B) : M S B :=
  fun s =>
    match m s with
    | (Returned a, s') => k a s'
    | (Raised e, s') => (Raised e, s')
    end.

Definition get {S} : M S S := fun s => (Returned s, s).

Definition put {S} (s : S) : M S unit := fun _ => (Returned tt, s).

(** Run a computation on the second component of a pair state. *)
Definition lift {S W A} (m : M W A) : M (S * W) A :=
  fun '(s, w) => let '(r, w') := m w in (r, (s, w')).

Declare Scope py_scope.
Delimit Scope py_scope with py.
Notation "x <-- m ;; k" := (bind m (fun x => k))
  (at level 100, m at next level, right associativity) : py_scope.
Notation "m ;;; k" := (bind m (fun _ => k))
  (at level 100, right associativity) : py_scope.

(** [d[k]] where [d] is a [dict] from [str] to [str]. *)
Definition getitem {S} (d : gmap string string) (k : string) : M S string :=
  match d !! k with
  | Some v => ret v
  | None => raise (KeyError k)
  end.

(** [data[k]] on a decoded response, used where the caller goes on to treat
    the value as a [str] identifier: a missing key raises [KeyError]; a
    value that is not a [str], or a [data] that is not a [dict], is reported
    as [TypeError]. *)
Definition getitem_str {S} (data : json) (k : string) : M S string :=
  match data with
  | JObj fields =>
      match assoc k fields with
      | Some (JStr v) => ret v
      | Some _ => raise TypeError
      | None => raise (KeyError k)
      end
  | _ => raise TypeError
  end.

(** ** file_sharing_api.py: the subject's store

    The [datetime.now()] stamps of the entities and of the responses are
    not part of the model: nothing in the sources branches on them. *)

Module Store.

Record User := {
  u_user_id : string;
  u_email : string;
  u_organization_id : string;
  u_name : string
}.

Record File := {
  f_file_id : string;
  f_owner_id : string;
  f_name : string;
  f_visibility : string;
  f_content : string
}.

Record Permission := {
  p_file_id : string;
  p_user_id : string;
  p_permission_type : string
}.

Record APIResponse := {
  status_code : Z;
  message : string;
  data : list (string * json)
}.

(** [APIResponse(status, message)]: [data or {}] is the empty dict. *)
Definition response (code : Z) (msg : string) : APIResponse :=
  {| status_code := code; message := msg; data := [] |}.

(** [APIResponse.to_dict] (without the time stamp). *)
Definition to_dict (r : APIResponse) : json :=
  JObj [("status_code", JNum (status_code r));
        ("message", JStr (message r));
        ("data", JObj (data r))].

(** The four dictionaries of a [FileShareAPI] object. *)
Record FileShareAPI := {
  users : gmap string User;
  files : gmap string File;
  permissions : gmap (string * string) Permission;
  organizations : gmap string (list string)
}.

(** [FileShareAPI.__init__] *)
Definition init : FileShareAPI :=
  {| users := ∅; files := ∅; permissions := ∅; organizations := ∅ |}.

(** [FileShareAPI.create_user]; [user_id] is the value drawn from
    [uuid.uuid4()]. *)
Definition create_user (user_id email organization_id name : string)
    (self : FileShareAPI) : APIResponse * FileShareAPI :=
  let user := {| u_user_id := user_id; u_email := email;
                 u_organization_id := organization_id; u_name := name |} in
  let members :=
    match organizations self !! organization_id with
    | None => []
    | Some l => l
    end in
  ({| status_code := 201;
      message := "User created successfully";
      data := [("user_id", JStr user_id); ("email", JStr email)] |},
   {| users := <[user_id := user]> (users self);
      files := files self;
      permissions := permissions self;
      organizations :=
        <[organization_id := (members ++ [user_id])%list]>
          (organizations self) |}).

(** [FileShareAPI.get_user] *)
Definition get_user (user_id : string) (self : FileShareAPI) : option User :=
  users self !! user_id.

(** [FileShareAPI.create_file]; [file_id] is the value drawn from
    [uuid.uuid4()] (drawn only when both checks pass). *)
Definition create_file (file_id owner_id name visibility content : string)
    (self : FileShareAPI) : APIResponse * FileShareAPI :=
  match users self !! owner_id with
  | None => (response 404 "User not found", self)
  | Some _ =>
      if negb (py_in visibility ["private"; "shared"; "org_public"; "public"])
      then (response 400 "Invalid visibility level", self)
      else
        let file := {| f_file_id := file_id; f_owner_id := owner_id;
                       f_name := name; f_visibility := visibility;
                       f_content := content |} in
        ({| status_code := 201;
            message := "File created successfully";
            data := [("file_id", JStr file_id); ("name", JStr name);
                     ("visibility", JStr visibility)] |},
         {| users := users self;
            files := <[file_id := file]> (files self);
            permissions := permissions self;
            organizations := organizations self |})
  end.

(** [FileShareAPI._check_authorization]. It reads the store and never
    writes it; the lookup [self.users[file.owner_id]] of rule 3 raises
    [KeyError] when the owner is unknown. *)
Definition _check_authorization (file_id user_id action : string)
    (self : FileShareAPI) : outcome bool :=
  match files self !! file_id, users self !! user_id with
  | Some file, Some user =>
      (* Rule 1 *)
      if py_eq (f_owner_id file) user_id then Returned true
      (* Rule 2 *)
      else if py_eq (f_visibility file) "public" then
        if py_eq action "read" then Returned true
        else if py_eq action "edit" then Returned true
        else Returned false
      (* Rule 3 *)
      else if py_eq (f_visibility file) "org_public" then
        match users self !! f_owner_id file with
        | None => Raised (KeyError (f_owner_id file))
        | Some owner =>
            let same_org :=
              py_eq (u_organization_id user) (u_organization_id owner) in
            if same_org && py_eq action "read" then Returned true
            else if same_org && py_eq action "delete" then Returned true
            else Returned false
        end
      else
        (* Rule 4 *)
        match permissions self !! (file_id, user_id) with
        | Some perm =>
            if py_eq action "read" then Returned true
            else if py_eq action "edit" then
              Returned (py_eq (p_permission_type perm) "edit"
                        || py_eq (p_permission_type perm) "read")
            else if py_eq action "share" then Returned true
            else if py_eq action "delete" then Returned false
            else Returned false
        (* Rule 5 *)
        | None => Returned false
        end
  | _, _ => Returned false
  end.

(** The authorization check as the operations use it: an exception leaves
    the operation without a response. *)
Definition authorized (file_id user_id action : string)
    (self : FileShareAPI)
    (k : bool -> outcome APIResponse * FileShareAPI)
    : outcome APIResponse * FileShareAPI :=
  match _check_authorization file_id user_id action self with
  | Returned b => k b
  | Raised e => (Raised e, self)
  end.

(** [FileShareAPI.get_file] (the response carries the file; its
    [created_at] member is left out). *)
Definition get_file (file_id user_id : string) (self : FileShareAPI)
    : outcome APIResponse * FileShareAPI :=
  match files self !! file_id with
  | None => (Returned (response 404 "File not found"), self)
  | Some file =>
      authorized file_id user_id "read" self (fun ok =>
        if negb ok then (Returned (response 403 "Access denied"), self)
        else
          (Returned
             {| status_code := 200;
                message := "File retrieved successfully";
                data := [("file_id", JStr (f_file_id file));
                         ("name", JStr (f_name file));
                         ("owner_id", JStr (f_owner_id file));
                         ("visibility", JStr (f_visibility file));
                         ("content", JStr (f_content file))] |},
           self))
  end.

(** [FileShareAPI.update_file] (the [updated_at] member of the response
    is left out). *)
Definition update_file (file_id user_id content : string)
    (self : FileShareAPI) : outcome APIResponse * FileShareAPI :=
  match files self !! file_id with
  | None => (Returned (response 404 "File not found"), self)
  | Some file =>
      authorized file_id user_id "edit" self (fun ok =>
        if negb ok then (Returned (response 403 "Access denied"), self)
        else
          let file' := {| f_file_id := f_file_id file;
                          f_owner_id := f_owner_id file;
                          f_name := f_name file;
                          f_visibility := f_visibility file;
                          f_content := content |} in
          (Returned
             {| status_code := 200;
                message := "File updated successfully";
                data := [("file_id", JStr file_id)] |},
           {| users := users self;
              files := <[file_id := file']> (files self);
              permissions := permissions self;
              organizations := organizations self |}))
  end.

(** [FileShareAPI.delete_file]: removes the file and every permission
    whose key starts with its identifier. *)
Definition delete_file (file_id user_id : string) (self : FileShareAPI)
    : outcome APIResponse * FileShareAPI :=
  match files self !! file_id with
  | None => (Returned (response 404 "File not found"), self)
  | Some _ =>
      authorized file_id user_id "delete" self (fun ok =>
        if negb ok then (Returned (response 403 "Access denied"), self)
        else
          (Returned
             {| status_code := 200;
                message := "File deleted successfully";
                data := [("file_id", JStr file_id)] |},
           {| users := users self;
              files := delete file_id (files self);
              permissions :=
                filter (fun kv => fst (fst kv) <> file_id) (permissions self);
              organizations := organizations self |}))
  end.

(** [FileShareAPI.share_file] *)
Definition share_file (file_id user_id target_user_id permission_type : string)
    (self : FileShareAPI) : outcome APIResponse * FileShareAPI :=
  match files self !! file_id with
  | None => (Returned (response 404 "File not found"), self)
  | Some _ =>
      match users self !! target_user_id with
      | None => (Returned (response 404 "Target user not found"), self)
      | Some _ =>
          authorized file_id user_id "share" self (fun ok =>
            if negb ok
            then (Returned
                    (response 403 "Access denied - cannot share this file"),
                  self)
            else
              let permission :=
                {| p_file_id := file_id; p_user_id := target_user_id;
                   p_permission_type := permission_type |} in
              (Returned
                 {| status_code := 200;
                    message := "File shared successfully";
                    data := [("file_id", JStr file_id);
                             ("shared_with", JStr target_user_id);
                             ("permission", JStr permission_type)] |},
               {| users := users self;
                  files := files self;
                  permissions :=
                    <[(file_id, target_user_id) := permission]>
                      (permissions self);
                  organizations := organizations self |}))
      end
  end.

(** [FileShareAPI.reset] *)
Definition reset (self : FileShareAPI) : FileShareAPI := init.

End Store.

(** ** The HTTP exchange between [api_client.py] and [server.py]

    A request names the route and carries the fields that the client puts
    in the URL, the query string or the JSON body. The routes
    [GET /users/<id>], [GET /files] and [GET /files/<id>/permissions] are
    never used by the test framework and are left out. Identifiers that
    travel in the URL are taken to be single path segments. *)

Inductive Request :=
| POST_reset
| POST_users (email organization_id name : string)
| POST_files (owner_id name visibility content : string)
| GET_file (file_id user_id : string)
| PUT_file (file_id user_id content : string)
| DELETE_file (file_id user_id : string)
| POST_share (file_id user_id target_user_id permission_type : string)
| POST_authorize (file_id user_id action : string).

(** The body of a response: a JSON document, or text on which
    [resp.json()] raises. *)
Inductive Payload :=
| Json (j : json)
| Text (t : string).

(** A [requests.Response]. *)
Record Response := {
  status : Z;
  payload : Payload
}.

(** ** server.py *)

Module Flask.

(** The process state of the server: the module-level [api] object and the
    source of [uuid.uuid4()] values ([uuid4 n] is the n-th value drawn). *)
Record Server := {
  api : Store.FileShareAPI;
  uuid4 : nat -> string;
  drawn : nat
}.

Definition with_api (srv : Server) (a : Store.FileShareAPI) : Server :=
  {| api := a; uuid4 := uuid4 srv; drawn := drawn srv |}.

(** [not s] on a [str]. *)
Definition missing (s : string) : bool := py_eq s EmptyString.

(** [_bad_request] *)
Definition _bad_request (msg : string) : Response :=
  {| status := 400;
     payload := Json (JObj [("status_code", JNum 400);
                            ("message", JStr msg)]) |}.

(** [jsonify(resp.to_dict()), resp.status_code] *)
Definition jsonify (resp : Store.APIResponse) : Response :=
  {| status := Store.status_code resp;
     payload := Json (Store.to_dict resp) |}.

(** What the client sees when a view function raises. *)
Definition internal_error : Response :=
  {| status := 500; payload := Text "Internal Server Error" |}.

(** Reply of a view that calls a store operation which may raise. *)
Definition reply (srv : Server)
    (r : outcome Store.APIResponse * Store.FileShareAPI)
    : Response * Server :=
  match r with
  | (Returned resp, a) => (jsonify resp, with_api srv a)
  | (Raised _, a) => (internal_error, with_api srv a)
  end.

(** [create_user] *)
Definition create_user (email organization_id name : string)
    (srv : Server) : Response * Server :=
  if missing email || missing organization_id || missing name
  then (_bad_request
          "Missing required fields: email, organization_id, name", srv)
  else
    let '(resp, a) :=
      Store.create_user (uuid4 srv (drawn srv)) email organization_id name
        (api srv) in
    (jsonify resp,
     {| api := a; uuid4 := uuid4 srv; drawn := S (drawn srv) |}).

(** [create_file]: an identifier is drawn only when the file is created. *)
Definition create_file (owner_id name visibility content : string)
    (srv : Server) : Response * Server :=
  if missing owner_id || missing name || missing visibility
  then (_bad_request
          "Missing required fields: owner_id, name, visibility", srv)
  else
    let '(resp, a) :=
      Store.create_file (uuid4 srv (drawn srv)) owner_id name visibility
        content (api srv) in
    (jsonify resp,
     {| api := a; uuid4 := uuid4 srv;
        drawn := if Store.status_code resp =? 201
                 then S (drawn srv) else drawn srv |}).

(** [get_file] *)
Definition get_file (file_id user_id : string) (srv : Server)
    : Response * Server :=
  if missing user_id
  then (_bad_request "Missing query param: user_id", srv)
  else reply srv (Store.get_file file_id user_id (api srv)).

(** [update_file] *)
Definition update_file (file_id user_id content : string) (srv : Server)
    : Response * Server :=
  if missing user_id
  then (_bad_request "Missing required fields: user_id, content", srv)
  else reply srv (Store.update_file file_id user_id content (api srv)).

(** [delete_file] *)
Definition delete_file (file_id user_id : string) (srv : Server)
    : Response * Server :=
  if missing user_id
  then (_bad_request "Missing query param: user_id", srv)
  else reply srv (Store.delete_file file_id user_id (api srv)).

(** [share_file] *)
Definition share_file (file_id user_id target_user_id permission_type : string)
    (srv : Server) : Response * Server :=
  if missing user_id || missing target_user_id
  then (_bad_request
          "Missing required fields: user_id, target_user_id", srv)
  else reply srv
         (Store.share_file file_id user_id target_user_id permission_type
            (api srv)).

(** [authorize_check]: the non-destructive authorization endpoint. *)
Definition authorize_check (file_id user_id action : string) (srv : Server)
    : Response * Server :=
  if missing file_id || missing user_id || missing action
  then (_bad_request
          "Missing required fields: file_id, user_id, action", srv)
  else
    match Store._check_authorization file_id user_id action (api srv) with
    | Returned allowed =>
        ({| status := 200;
            payload := Json (JObj [("allowed", JBool allowed)]) |}, srv)
    | Raised _ => (internal_error, srv)
    end.

(** [reset_api] *)
Definition reset_api (srv : Server) : Response * Server :=
  ({| status := 200;
      payload := Json (JObj [("status_code", JNum 200);
                             ("message", JStr "API state reset")]) |},
   with_api srv (Store.reset (api srv))).

(** Routing of a request to its view function. *)
Definition handle (req : Request) (srv : Server) : Response * Server :=
  match req with
  | POST_reset => reset_api srv
  | POST_users e o n => create_user e o n srv
  | POST_files o n v c => create_file o n v c srv
  | GET_file f u => get_file f u srv
  | PUT_file f u c => update_file f u c srv
  | DELETE_file f u => delete_file f u srv
  | POST_share f u t p => share_file f u t p srv
  | POST_authorize f u a => authorize_check f u a srv
  end.

(** The server as the client's transport: every request is answered. *)
Definition transport (req : Request) : M Server Response :=
  fun srv => let '(resp, srv') := handle req srv in (Returned resp, srv').

End Flask.

(** ** api_client.py *)

Module Client.

(** The [SimpleNamespace] built by [_wrap_response]. *)
Record Wrapped := {
  status_code : Z;
  data : json;
  message : json;
  raw : json
}.

Section ApiClient.

(** The subject behind [self.session]: it answers a request with a response
    or raises ([ConnectionError], [Timeout], [RetryError], ...), and has a
    state of its own. *)
Context {W : Type}.
Variable send : Request -> M W Response.

(** [ApiClient._wrap_response]: only [resp.json()] is guarded; [body.get]
    on a document that is not an object raises [AttributeError]. *)
Definition _wrap_response (resp : Response) : M W Wrapped :=
  let body :=
    match payload resp with
    | Json j => j
    | Text t => JObj [("message", JStr t)]
    end in
  match body with
  | JObj fields =>
      ret {| status_code := status resp;
             data := default (JObj []) (assoc "data" fields);
             message := default (JStr EmptyString) (assoc "message" fields);
             raw := body |}
  | _ => raise AttributeError
  end.

Definition call (req : Request) : M W Wrapped :=
  (r <-- send req ;; _wrap_response r)%py.

Definition reset : M W Wrapped := call POST_reset.

Definition create_user (email organization_id name : string) : M W Wrapped :=
  call (POST_users email organization_id name).

Definition create_file (owner_id name visibility content : string)
    : M W Wrapped :=
  call (POST_files owner_id name visibility content).

Definition get_file (file_id user_id : string) : M W Wrapped :=
  call (GET_file file_id user_id).

Definition update_file (file_id user_id content : string) : M W Wrapped :=
  call (PUT_file file_id user_id content).

Definition delete_file (file_id user_id : string) : M W Wrapped :=
  call (DELETE_file file_id user_id).

Definition share_file (file_id user_id target_user_id permission_type : string)
    : M W Wrapped :=
  call (POST_share file_id user_id target_user_id permission_type).

(** [ApiClient.check_authorization]: the request itself is outside the
    [try]; decoding and reading the body are inside it, and every failure
    there answers [False]. *)
Definition check_authorization (file_id user_id action : string)
    : M W bool :=
  (r <-- send (POST_authorize file_id user_id action) ;;
   match payload r with
   | Json (JObj fields) =>
       ret (truthy (default (JBool false) (assoc "allowed" fields)))
   | _ => ret false
   end)%py.

End ApiClient.

End Client.

(** ** test_framework.py *)

Module Framework.

(** [TestResult] (without its time stamp). *)
Record TestResult := {
  scenario_id : Z;
  scenario : Policy.Scenario;
  expected : string;
  actual : string;
  passed : bool
}.

(** The attributes of an [AuthorizationTestFramework]; its [api] client is
    the transport of the section below. *)
Record AuthorizationTestFramework := {
  policy : Policy.AuthorizationPolicy;
  users : gmap string string;
  files : gmap string string;
  test_results : list TestResult
}.

(** [AuthorizationTestFramework.__init__] *)
Definition init : AuthorizationTestFramework :=
  {| policy := Policy.init; users := ∅; files := ∅; test_results := [] |}.

Definition set_users (self : AuthorizationTestFramework)
    (u : gmap string string) : AuthorizationTestFramework :=
  {| policy := policy self; users := u; files := files self;
     test_results := test_results self |}.

Definition set_files (self : AuthorizationTestFramework)
    (f : gmap string string) : AuthorizationTestFramework :=
  {| policy := policy self; users := users self; files := f;
     test_results := test_results self |}.

Definition set_test_results (self : AuthorizationTestFramework)
    (r : list TestResult) : AuthorizationTestFramework :=
  {| policy := policy self; users := users self; files := files self;
     test_results := r |}.

(** The tail of [execute_api_action]: the status code of the response held
    in [response], if any, becomes the observed decision. A
    [SimpleNamespace] is always truthy. *)
Definition normalize (response : option Client.Wrapped) : string :=
  match response with
  | Some r =>
      if (Client.status_code r =? 200) || (Client.status_code r =? 201)
      then "ALLOW"
      else if Client.status_code r =? 403 then "DENY"
      else "ERROR"
  | None => "ERROR"
  end.

Section Oracle.

Context {W : Type}.
Variable send : Request -> M W Response.

(** Methods that assign attributes of [self] run on the pair of the
    framework object and the subject. *)
Definition self_ : M (AuthorizationTestFramework * W) AuthorizationTestFramework :=
  fun s => (Returned (fst s), s).

Definition assign (f : AuthorizationTestFramework -> AuthorizationTestFramework)
    : M (AuthorizationTestFramework * W) unit :=
  fun s => (Returned tt, (f (fst s), snd s)).

(** [setup_test_fixtures]: reset, four users, four files owned by the
    owner, and an edit permission for the collaborator on the shared and
    the private file. The responses of the two share calls are dropped. *)
Definition setup_test_fixtures : M (AuthorizationTestFramework * W) unit :=
  (let org_acme := "org-acme" in
   let org_external := "org-external" in
   lift (Client.reset send) ;;;
   owner_resp <-- lift (Client.create_user send "owner@acme.com" org_acme "Test Owner") ;;
   collab_resp <-- lift (Client.create_user send "collab@acme.com" org_acme "Test Collaborator") ;;
   org_resp <-- lift (Client.create_user send "orgmember@acme.com" org_acme "Test OrgMember") ;;
   ext_resp <-- lift (Client.create_user send "external@other.com" org_external "Test External") ;;
   owner <-- getitem_str (Client.data owner_resp) "user_id" ;;
   collaborator <-- getitem_str (Client.data collab_resp) "user_id" ;;
   org_member <-- getitem_str (Client.data org_resp) "user_id" ;;
   external <-- getitem_str (Client.data ext_resp) "user_id" ;;
   assign (fun self =>
     set_users self
       (<["external" := external]>
          (<["org_member" := org_member]>
             (<["collaborator" := collaborator]>
                (<["owner" := owner]> ∅))))) ;;;
   self <-- self_ ;;
   owner_id <-- getitem (users self) "owner" ;;
   private_resp <-- lift (Client.create_file send owner_id "test-private.txt" "private" "Private content") ;;
   shared_resp <-- lift (Client.create_file send owner_id "test-shared.txt" "shared" "Shared content") ;;
   org_resp <-- lift (Client.create_file send owner_id "test-org.txt" "org_public" "Org content") ;;
   public_resp <-- lift (Client.create_file send owner_id "test-public.txt" "public" "Public content") ;;
   private <-- getitem_str (Client.data private_resp) "file_id" ;;
   shared <-- getitem_str (Client.data shared_resp) "file_id" ;;
   org_public <-- getitem_str (Client.data org_resp) "file_id" ;;
   public <-- getitem_str (Client.data public_resp) "file_id" ;;
   assign (fun self =>
     set_files self
       (<["public" := public]>
          (<["org_public" := org_public]>
             (<["shared" := shared]>
                (<["private" := private]> ∅))))) ;;;
   self <-- self_ ;;
   collab_id <-- getitem (users self) "collaborator" ;;
   shared_id <-- getitem (files self) "shared" ;;
   lift (Client.share_file send shared_id owner_id collab_id "edit") ;;;
   private_id <-- getitem (files self) "private" ;;
   lift (Client.share_file send private_id owner_id collab_id "edit") ;;;
   ret tt)%py.

(** [execute_api_action]: it reads [self.users] and talks to the subject;
    the [delete] branch returns on its own, the other branches fall into
    the status mapping. *)
Definition execute_api_action (self : AuthorizationTestFramework)
    (file_id user_id action : string) : M W string :=
  (if py_eq action "read" then
     response <-- Client.get_file send file_id user_id ;;
     ret (normalize (Some response))
   else if py_eq action "edit" then
     response <-- Client.update_file send file_id user_id "Updated content" ;;
     ret (normalize (Some response))
   else if py_eq action "delete" then
     authorized <-- Client.check_authorization send file_id user_id "delete" ;;
     ret (if authorized : bool then "ALLOW" else "DENY")
   else if py_eq action "share" then
     target_id <-- getitem (users self) "external" ;;
     response <-- Client.share_file send file_id user_id target_id "read" ;;
     ret (normalize (Some response))
   else ret (normalize None))%py.

(** [test_scenario] *)
Definition test_scenario (self : AuthorizationTestFramework)
    (scenario : Policy.Scenario) : M W TestResult :=
  (let audience := Policy.audience scenario in
   let visibility := Policy.visibility scenario in
   let action := Policy.action scenario in
   let expected := Policy.expected_result scenario in
   user_id <-- getitem (users self) audience ;;
   file_id <-- getitem (files self) visibility ;;
   actual <-- execute_api_action self file_id user_id action ;;
   let passed := py_eq expected actual in
   ret {| scenario_id := Policy.scenario_id scenario;
          scenario := scenario;
          expected := expected;
          actual := actual;
          passed := passed |})%py.

(** The [for] loop of [run_all_tests]. *)
Fixpoint run_scenarios (scenarios : list Policy.Scenario)
    : M (AuthorizationTestFramework * W) unit :=
  match scenarios with
  | [] => ret tt
  | scenario :: rest =>
      (self <-- self_ ;;
       result <-- lift (test_scenario self scenario) ;;
       assign (fun self =>
         set_test_results self (test_results self ++ [result])%list) ;;;
       run_scenarios rest)%py
  end.

(** [run_all_tests] *)
Definition run_all_tests
    : M (AuthorizationTestFramework * W) (list TestResult) :=
  (self <-- self_ ;;
   let scenarios := Policy.generate_all_scenarios (policy self) in
   assign (fun self => set_test_results self []) ;;;
   run_scenarios scenarios ;;;
   self <-- self_ ;;
   ret (test_results self))%py.

End Oracle.

(** The dictionary returned by [analyze_results], without its [pass_rate]
    member (a float). *)
Record Analysis := {
  total : Z;
  passed_count : Z;
  failed : Z;
  over_permissive : list TestResult;
  over_restrictive : list TestResult;
  failures_by_audience : gmap string (list TestResult);
  failures_by_action : gmap string (list TestResult)
}.

(** One round of the loop that fills the two severity lists. *)
Definition categorize (st : list TestResult * list TestResult)
    (result : TestResult) : list TestResult * list TestResult :=
  let '(over_permissive, over_restrictive) := st in
  if negb (passed result) then
    if py_eq (expected result) "DENY" && py_eq (actual result) "ALLOW"
    then ((over_permissive ++ [result])%list, over_restrictive)
    else if py_eq (expected result) "ALLOW" && py_eq (actual result) "DENY"
    then (over_permissive, (over_restrictive ++ [result])%list)
    else st
  else st.

(** One round of a grouping loop, for the dimension read by [key]. *)
Definition group_by (key : TestResult -> string)
    (groups : gmap string (list TestResult)) (result : TestResult)
    : gmap string (list TestResult) :=
  if negb (passed result) then
    let k := key result in
    let groups' :=
      match groups !! k with
      | None => <[k := []]> groups
      | Some _ => groups
      end in
    <[k := (default [] (groups' !! k) ++ [result])%list]> groups'
  else groups.

(** [analyze_results] *)
Definition analyze_results (self : AuthorizationTestFramework) : Analysis :=
  let results := test_results self in
  let total := Z.of_nat (length results) in
  let passed :=
    fold_left (fun n r => if passed r then n + 1 else n) results 0 in
  let failed := total - passed in
  let severity := fold_left categorize results ([], []) in
  {| total := total;
     passed_count := passed;
     failed := failed;
     over_permissive := fst severity;
     over_restrictive := snd severity;
     failures_by_audience :=
       fold_left (group_by (fun r => Policy.audience (scenario r)))
         results ∅;
     failures_by_action :=
       fold_left (group_by (fun r => Policy.action (scenario r)))
         results ∅ |}.

(** [get_failed_scenarios] *)
Definition get_failed_scenarios (self : AuthorizationTestFramework)
    : list TestResult :=
  List.filter (fun r => negb (passed r)) (test_results self).

End Framework.

(** ** Definitions used to state the properties *)

(** The five-rule priority chain in the words of the design document; the
    guard of its first rule is the parameter [rule1]. *)
Definition five_rule_chain (rule1 : bool) (resourceClass action : string)
    (has_collaboration_permission same_org : bool) : string :=
  if rule1 then "ALLOW"
  else if py_eq resourceClass "public" then
    if py_eq action "read" then "ALLOW" else "DENY"
  else if py_eq resourceClass "org_public" then
    if same_org && py_eq action "read" then "ALLOW" else "DENY"
  else if has_collaboration_permission then
    if py_eq action "read" || py_eq action "edit" then "ALLOW" else "DENY"
  else "DENY".

(** The cross-product of the three enumerations, audiences outermost. *)
Definition triples : list (string * string * string) :=
  flat_map
    (fun a =>
       flat_map (fun v => map (fun c => (a, v, c)) Policy.actions)
         Policy.visibilities)
    Policy.audiences.

Definition triple (s : Policy.Scenario) : string * string * string :=
  (Policy.audience s, Policy.visibility s, Policy.action s).

Definition triple_eq_dec (x y : string * string * string)
    : {x = y} + {x <> y} := decide (x = y).

(** The scenario that the generator attaches to a triple and a number. *)
Definition scenario_of (self : Policy.AuthorizationPolicy) (n : Z)
    (t : string * string * string) : Policy.Scenario :=
  let '(a, v, c) := t in
  let is_owner := py_eq a "owner" in
  let has_collab := py_eq a "collaborator" in
  let same_org := py_in a ["owner"; "org_member"] in
  {| Policy.scenario_id := n;
     Policy.audience := a;
     Policy.visibility := v;
     Policy.action := c;
     Policy.is_owner := is_owner;
     Policy.has_collaboration := has_collab;
     Policy.same_org := same_org;
     Policy.expected_result :=
       Policy.evaluate self a v c is_owner has_collab same_org |}.

(** Numbering of a list from [n] on. *)
Fixpoint number_from {A B} (f : Z -> A -> B) (n : Z) (l : list A) : list B :=
  match l with
  | [] => []
  | x :: rest => f n x :: number_from f (n + 1) rest
  end.

(** A transport that also keeps the list of the requests it was asked to
    carry, in order. *)
Definition recording {W} (send : Request -> M W Response) (req : Request)
    : M (W * list Request) Response :=
  fun '(w, log) =>
    let '(r, w') := send req w in (r, (w', (log ++ [req])%list)).

(** The observed decision of a [delete] scenario against the server: the
    answer of the store's authorization check, when the request is
    well-formed and the check returns. *)
Definition delete_verdict (file_id user_id : string) (srv : Flask.Server)
    : string :=
  if Flask.missing file_id || Flask.missing user_id then "DENY"
  else
    match Store._check_authorization file_id user_id "delete"
            (Flask.api srv) with
    | Returned true => "ALLOW"
    | _ => "DENY"
    end.

(** Every list of results that an analysis reports: the two severity
    lists and the groups of the two dimensions. *)
Definition reported_groups (a : Framework.Analysis)
    : list (list Framework.TestResult) :=
  Framework.over_permissive a
  :: Framework.over_restrictive a
  :: (map snd (map_to_list (Framework.failures_by_audience a))
      ++ map snd (map_to_list (Framework.failures_by_action a)))%list.

(** The failed results of a list whose dimension [key] has the value [k],
    in order. *)
Definition failures_with (key : Framework.TestResult -> string) (k : string)
    (results : list Framework.TestResult) : list Framework.TestResult :=
  List.filter
    (fun r => negb (Framework.passed r) && py_eq (key r) k) results.

#[global] Instance Scenario_eq_dec : EqDecision Policy.Scenario.
Proof. solve_decision. Defined.

#[global] Instance TestResult_eq_dec : EqDecision Framework.TestResult.
Proof. solve_decision. Defined.

#[global] Instance Request_eq_dec : EqDecision Request.
Proof. solve_decision. Defined.

(** *** Sample subjects *)

(** A server whose n-th identifier is the text "uuid-n". *)
Definition sample_uuid4 (n : nat) : string := "uuid-" +:+ pretty n.

Definition sample_server : Flask.Server :=
  {| Flask.api := Store.init; Flask.uuid4 := sample_uuid4;
     Flask.drawn := 0%nat |}.

(** The framework object and the server after [setup_test_fixtures]. *)
Definition sample_fixtures : Framework.AuthorizationTestFramework :=
  fst (snd (Framework.setup_test_fixtures Flask.transport
              (Framework.init, sample_server))).

Definition sample_subject : Flask.Server :=
  snd (snd (Framework.setup_test_fixtures Flask.transport
              (Framework.init, sample_server))).

(** A subject that answers every request with status 503 and a plain-text
    body. *)
Definition unavailable (req : Request) : M unit Response :=
  ret {| status := 503; payload := Text "Service Unavailable" |}.

(** A subject that cannot be reached: every request raises. *)
Definition unreachable (req : Request) : M unit Response :=
  raise (RequestException "ConnectionError").

(** The framework object after a whole run against the unavailable
    subject, with the sample fixtures bound. *)
Definition unavailable_run : Framework.AuthorizationTestFramework :=
  fst (snd (Framework.run_all_tests unavailable (sample_fixtures, tt))).

(** Three scenarios of the generated sequence, by number. *)
Definition scenario_19 : Policy.Scenario :=
  scenario_of Policy.init 19 ("collaborator", "private", "delete").

Definition scenario_52 : Policy.Scenario :=
  scenario_of Policy.init 52 ("external", "private", "share").

Definition scenario_1 : Policy.Scenario :=
  scenario_of Policy.init 1 ("owner", "private", "read").

(** The result recorded for a generated scenario whose observed decision
    is "ERROR". *)
Definition error_result (scenario : Policy.Scenario) : Framework.TestResult :=
  {| Framework.scenario_id := Policy.scenario_id scenario;
     Framework.scenario := scenario;
     Framework.expected := Policy.expected_result scenario;
     Framework.actual := "ERROR";
     Framework.passed := false |}.

(** ** Definitions used to state further properties *)

(** The server after it has answered a sequence of requests. *)
Definition serve (reqs : list Request) (srv : Flask.Server) : Flask.Server :=
  fold_left (fun s req => snd (Flask.handle req s)) reqs srv.

(** The server process as it starts: an empty store ([api = FileShareAPI()])
    and a source of identifiers. *)
Definition started (uuid4 : nat -> string) : Flask.Server :=
  {| Flask.api := Store.init; Flask.uuid4 := uuid4; Flask.drawn := 0%nat |}.


(** The store's decision as a boolean: [True] only when the check returns
    [True]. *)
Definition authorizes (s : Store.FileShareAPI) (file_id user_id action : string)
    : bool :=
  match Store._check_authorization file_id user_id action s with
  | Returned b => b
  | Raised _ => false
  end.

(** The three situations in which the store grants what the policy denies
    to a principal who is not the owner: an edit of a public file, a delete
    of an org_public file within the owner's organization, and a share by
    the holder of a permission. *)
Definition deviation (visibility action : string)
    (same_org has_permission : bool) : bool :=
  (py_eq visibility "public" && py_eq action "edit")
  || (py_eq visibility "org_public" && same_org && py_eq action "delete")
  || (negb (py_eq visibility "public")
      && negb (py_eq visibility "org_public")
      && has_permission && py_eq action "share").

(** The [content] member of the data of a wrapped response. *)
Definition content_of (wr : Client.Wrapped) : option json :=
  match Client.data wr with
  | JObj fields => assoc "content" fields
  | _ => None
  end.

(** The fixtures that a list of scenarios needs. *)
Definition bound (self : Framework.AuthorizationTestFramework)
    (scs : list Policy.Scenario) : Prop :=
  Forall
    (fun sc =>
       is_Some (Framework.users self !! Policy.audience sc)
       /\ is_Some (Framework.files self !! Policy.visibility sc)) scs.

(** The number of results held by the groups of a dimension. *)
Definition group_total (groups : gmap string (list Framework.TestResult))
    : nat :=
  map_fold (fun _ group n => (length group + n)%nat) 0%nat groups.

(** [print_statistics]: the number of scenarios that expect "ALLOW", over
    a list of scenarios and over those of one audience. *)
Definition allow_count (scenarios : list Policy.Scenario) : Z :=
  fold_left
    (fun n s => if py_eq (Policy.expected_result s) "ALLOW" then n + 1 else n)
    scenarios 0.

Definition audience_allows (scenarios : list Policy.Scenario)
    (audience : string) : Z :=
  allow_count
    (List.filter (fun s => py_eq (Policy.audience s) audience) scenarios).

(** A subject that gives the same answer to every request. *)
Definition constant_subject {W : Type} (r : Response) (req : Request)
    : M W Response :=
  ret r.

(** ** Demo.py: how the demonstration observes a decision

    The prompts and the narration of the demonstration are left out. *)

Module Demo.

Section Loop.

Context {W : Type}.
Variable send : Request -> M W Response.

(** The [if]/[elif] chain of the loop of [simple_demo]: the status code of
    the response that the chain binds to [response], or [None] when no
    branch is taken and [response] keeps what it was bound to before. *)
Definition response_status (file_id user_id action external_id : string)
    : M W (option Z) :=
  (if py_eq action "read" then
     response <-- Client.get_file send file_id user_id ;;
     ret (Some (Client.status_code response))
   else if py_eq action "edit" then
     response <-- Client.update_file send file_id user_id "New content" ;;
     ret (Some (Client.status_code response))
   else if py_eq action "delete" then
     allowed <-- Client.check_authorization send file_id user_id "delete" ;;
     ret (Some (if allowed : bool then 200 else 403))
   else if py_eq action "share" then
     response <-- Client.share_file send file_id user_id external_id "read" ;;
     ret (Some (Client.status_code response))
   else ret None)%py.

End Loop.

(** ['ALLOW' if response.status_code in [200, 201] else 'DENY'] *)
Definition actual (status_code : Z) : string :=
  if existsb (Z.eqb status_code) [200; 201] then "ALLOW" else "DENY".

End Demo.

(** * Properties of the policy evaluator *)

(** Membership in a list written out in the source. *)
Ltac in_list :=
  repeat first [apply list_elem_of_here | apply list_elem_of_further].

Section Evaluator.

Import Policy.

Variable self : AuthorizationPolicy.

(** The evaluator never reads the policy object. *)
Lemma evaluate_self_irrelevant (self' : AuthorizationPolicy) a v c io hc so :
  evaluate self a v c io hc so = evaluate self' a v c io hc so.
Proof. reflexivity. Qed.

(** The source's rules 5 to 7 all deny, so the seven textual rules collapse
    to five. *)
Lemma evaluate_five_rules a v c io hc so :
  evaluate self a v c io hc so
  = five_rule_chain (io || py_eq a "owner") v c hc so.
Proof.
  unfold evaluate, five_rule_chain, py_in; simpl.
  rewrite orb_false_r.
  destruct (io || py_eq a "owner"); [reflexivity|].
  destruct (py_eq v "public"); [reflexivity|].
  destruct (py_eq v "org_public"); [reflexivity|].
  destruct hc; [reflexivity|].
  destruct (py_eq v "shared"), (py_eq v "private"); reflexivity.
Qed.

(** The evaluator only ever answers with one of the two decisions. *)
Lemma evaluate_decision a v c io hc so :
  evaluate self a v c io hc so = "ALLOW"
  \/ evaluate self a v c io hc so = "DENY".
Proof.
  rewrite evaluate_five_rules. unfold five_rule_chain.
  repeat match goal with
         | |- context [if ?b then _ else _] => destruct b
         end; auto.
Qed.

(** C1, as amended: for every audience, visibility, action and flags,
    [evaluate] is the five-rule first-match chain whose first rule fires
    when [is_owner] holds or the audience is the string "owner"; whenever
    the audience is not "owner" this is the chain of the design document
    with [is_owner] alone in rule 1. *)
Theorem evaluate_priority_chain :
  forall audience visibility action is_owner has_collab same_org,
    evaluate self audience visibility action is_owner has_collab same_org
    = five_rule_chain (is_owner || py_eq audience "owner")
        visibility action has_collab same_org
    /\ (audience <> "owner" ->
        evaluate self audience visibility action is_owner has_collab same_org
        = five_rule_chain is_owner visibility action has_collab same_org).
Proof.
  intros a v c io hc so. split.
  - apply evaluate_five_rules.
  - intros Ha. rewrite evaluate_five_rules.
    apply py_eq_false in Ha. rewrite Ha, orb_false_r. reflexivity.
Qed.

(** C9: an audience equal to "owner" is allowed everything, whatever the
    flags. *)
Theorem evaluate_owner_audience_allows :
  forall visibility action is_owner has_collab same_org,
    evaluate self "owner" visibility action is_owner has_collab same_org
    = "ALLOW".
Proof.
  intros v c io hc so. unfold evaluate.
  rewrite py_eq_refl, orb_true_r. reflexivity.
Qed.

(** C10: [evaluate] is a total function on arbitrary strings and flags (it
    has no raising operation: it compares strings and tests booleans); its
    value is always "ALLOW" or "DENY", and an input on which none of the
    rules 1 to 4 fires is denied. *)
Theorem evaluate_total_allow_or_deny :
  forall audience visibility action is_owner has_collab same_org,
    (evaluate self audience visibility action is_owner has_collab same_org
       = "ALLOW"
     \/ evaluate self audience visibility action is_owner has_collab same_org
       = "DENY")
    /\ (is_owner = false -> audience <> "owner" -> visibility <> "public" ->
        visibility <> "org_public" -> has_collab = false ->
        evaluate self audience visibility action is_owner has_collab same_org
        = "DENY").
Proof.
  intros a v c io hc so. split.
  - apply evaluate_decision.
  - intros -> Ha Hp Ho ->. rewrite evaluate_five_rules.
    apply py_eq_false in Ha, Hp, Ho.
    unfold five_rule_chain. rewrite Ha, Hp, Ho. reflexivity.
Qed.

(** C7, as amended: when rule 1 does not fire ([is_owner] is false and the
    audience is not "owner"), a principal with a collaboration permission
    is denied [delete] and [share] on every visibility, for every value of
    [same_org]. *)
Theorem collaborator_ceiling :
  forall audience visibility action same_org,
    audience <> "owner" ->
    action = "delete" \/ action = "share" ->
    evaluate self audience visibility action false true same_org = "DENY".
Proof.
  intros a v c so Ha Hc. rewrite evaluate_five_rules.
  apply py_eq_false in Ha. unfold five_rule_chain. rewrite Ha. simpl.
  destruct Hc as [-> | ->]; simpl;
    destruct (py_eq v "public"), (py_eq v "org_public"), so; reflexivity.
Qed.

End Evaluator.

Lemma collaborator_ceiling_witness :
  "collaborator" <> "owner"
  /\ Policy.evaluate Policy.init "collaborator" "shared" "delete"
       false true false = "DENY".
Proof.
  split; [discriminate|].
  apply (collaborator_ceiling Policy.init "collaborator" "shared" "delete"
           false); [discriminate | left; reflexivity].
Defined.

(** C1, as stated, fails: with the audience "owner" and [is_owner] false
    the code allows a read of a private resource, which the chain with
    [is_owner] alone in rule 1 denies. *)
Lemma evaluate_not_is_owner_chain :
  ~ (forall audience visibility action is_owner has_collab same_org,
       visibility ∈ Policy.visibilities -> action ∈ Policy.actions ->
       Policy.evaluate Policy.init audience visibility action
         is_owner has_collab same_org
       = five_rule_chain is_owner visibility action has_collab same_org).
Proof.
  intros H.
  specialize (H "owner" "private" "read" false false false).
  assert (Hv : "private" ∈ Policy.visibilities) by in_list.
  assert (Hc : "read" ∈ Policy.actions) by in_list.
  specialize (H Hv Hc). vm_compute in H. discriminate H.
Qed.

(** C7, as stated, fails: an owner who also holds a collaboration
    permission is allowed to delete. *)
Lemma collaborator_ceiling_not_for_owner :
  ~ (forall audience visibility is_owner same_org,
       visibility ∈ Policy.visibilities ->
       Policy.evaluate Policy.init audience visibility "delete"
         is_owner true same_org = "DENY"
       /\ Policy.evaluate Policy.init audience visibility "share"
         is_owner true same_org = "DENY").
Proof.
  intros H.
  assert (Hv : "private" ∈ Policy.visibilities) by in_list.
  destruct (H "collaborator" "private" true false Hv) as [Hd _].
  vm_compute in Hd. discriminate Hd.
Qed.

(** * Properties of the scenario generator *)

Section Generator.

Import Policy.

Variable self : AuthorizationPolicy.

Lemma number_from_app {A B} (f : Z -> A -> B) (l1 l2 : list A) n :
  number_from f n (l1 ++ l2)
  = (number_from f n l1 ++ number_from f (n + Z.of_nat (length l1)) l2)%list.
Proof.
  revert n. induction l1 as [|x l1 IH]; intros n; simpl.
  - f_equal. lia.
  - rewrite IH. do 3 f_equal. lia.
Qed.

Lemma length_number_from {A B} (f : Z -> A -> B) (l : list A) n :
  length (number_from f n l) = length l.
Proof. revert n. induction l; intros; simpl; auto. Qed.

(** The innermost loop appends one numbered scenario per action. *)
Lemma emit_loop a v cs acc n :
  fold_left (emit self a v) cs (acc, n)
  = ((acc ++ number_from (scenario_of self) n (map (fun c => (a, v, c)) cs))%list,
     n + Z.of_nat (length cs)).
Proof.
  revert acc n. induction cs as [|c cs IH]; intros acc n.
  - simpl. rewrite app_nil_r. f_equal. lia.
  - cbn [fold_left]. unfold emit at 2. rewrite IH.
    cbn [map number_from length]. rewrite <- app_assoc. simpl.
    f_equal. lia.
Qed.

Lemma visibility_loop a vs acc n :
  let ts := flat_map (fun v => map (fun c => (a, v, c)) actions) vs in
  fold_left (fun st v => fold_left (emit self a v) actions st) vs (acc, n)
  = ((acc ++ number_from (scenario_of self) n ts)%list,
     n + Z.of_nat (length ts)).
Proof.
  revert acc n. induction vs as [|v vs IH]; intros acc n ts.
  - simpl. rewrite app_nil_r. f_equal. lia.
  - cbn [fold_left]. rewrite emit_loop, IH. subst ts.
    cbn [flat_map]. rewrite number_from_app, length_app, length_map.
    rewrite <- app_assoc. f_equal. lia.
Qed.

Lemma audience_loop aus acc n :
  let ts :=
    flat_map
      (fun a => flat_map (fun v => map (fun c => (a, v, c)) actions)
                  visibilities) aus in
  fold_left
    (fun st a =>
       fold_left (fun st v => fold_left (emit self a v) actions st)
         visibilities st) aus (acc, n)
  = ((acc ++ number_from (scenario_of self) n ts)%list,
     n + Z.of_nat (length ts)).
Proof.
  revert acc n. induction aus as [|a aus IH]; intros acc n ts.
  - simpl. rewrite app_nil_r. f_equal. lia.
  - cbn [fold_left]. rewrite visibility_loop, IH. subst ts.
    cbn [flat_map]. rewrite number_from_app, length_app.
    rewrite <- app_assoc. f_equal. lia.
Qed.

(** The generator numbers the cross-product from 1 on. *)
Lemma generate_all_scenarios_eq :
  generate_all_scenarios self = number_from (scenario_of self) 1 triples.
Proof.
  unfold generate_all_scenarios. rewrite audience_loop. reflexivity.
Qed.

Lemma triple_number_from n ts :
  map triple (number_from (scenario_of self) n ts) = ts.
Proof.
  revert n. induction ts as [|[[a v] c] ts IH]; intros n; simpl.
  - reflexivity.
  - rewrite IH. reflexivity.
Qed.

Lemma Forall_number_from (P : Scenario -> Prop) n ts :
  (forall m t, P (scenario_of self m t)) ->
  Forall P (number_from (scenario_of self) n ts).
Proof.
  intros HP. revert n. induction ts; intros n; simpl; constructor; auto.
Qed.

Lemma triples_spec a v c :
  (a, v, c) ∈ triples <-> a ∈ audiences /\ v ∈ visibilities /\ c ∈ actions.
Proof.
  unfold triples. rewrite list_elem_of_In, in_flat_map. split.
  - intros (a' & Ha & H). apply in_flat_map in H as (v' & Hv & H).
    apply in_map_iff in H as (c' & Heq & Hc). inversion Heq; subst.
    rewrite !list_elem_of_In. auto.
  - intros (Ha & Hv & Hc). rewrite list_elem_of_In in Ha, Hv, Hc.
    exists a. split; [assumption|]. apply in_flat_map.
    exists v. split; [assumption|]. apply in_map_iff. eauto.
Qed.

Lemma triples_NoDup : NoDup triples.
Proof. compute_done. Qed.

(** Each triple of the cross-product occurs once, any other never. *)
Lemma count_occ_triples t :
  count_occ triple_eq_dec triples t = if bool_decide (t ∈ triples) then 1%nat else 0%nat.
Proof.
  case_bool_decide as Hin.
  - apply list_elem_of_In in Hin.
    pose proof (proj1 (count_occ_In triple_eq_dec _ _) Hin).
    pose proof (proj1 (NoDup_count_occ triple_eq_dec triples)
                  (proj1 (NoDup_ListNoDup _) triples_NoDup) t).
    lia.
  - apply count_occ_not_In. rewrite <- list_elem_of_In. assumption.
Qed.

(** C2: the generator returns 64 scenarios; their (audience, visibility,
    action) triples are the 4x4x4 cross-product, each triple once and no
    other triple at all; every scenario carries the booleans derived from
    its audience and the decision of [evaluate] on its own inputs. *)
Theorem generate_all_scenarios_complete :
  length (generate_all_scenarios self) = 64%nat
  /\ map triple (generate_all_scenarios self) = triples
  /\ NoDup (map triple (generate_all_scenarios self))
  /\ (forall a v c,
        count_occ triple_eq_dec (map triple (generate_all_scenarios self))
          (a, v, c)
        = if bool_decide (a ∈ audiences /\ v ∈ visibilities /\ c ∈ actions)
          then 1%nat else 0%nat)
  /\ Forall
       (fun s =>
          (is_owner s = true <-> audience s = "owner")
          /\ (has_collaboration s = true <-> audience s = "collaborator")
          /\ (same_org s = true
              <-> audience s = "owner" \/ audience s = "org_member")
          /\ expected_result s
             = evaluate self (audience s) (visibility s) (action s)
                 (is_owner s) (has_collaboration s) (same_org s))
       (generate_all_scenarios self).
Proof.
  rewrite generate_all_scenarios_eq, triple_number_from.
  split; [rewrite length_number_from; reflexivity|].
  split; [reflexivity|].
  split; [apply triples_NoDup|].
  split.
  - intros a v c. rewrite count_occ_triples.
    rewrite (bool_decide_ext _ _ (triples_spec a v c)). reflexivity.
  - apply Forall_number_from. intros m [[a v] c]. simpl.
    rewrite !py_eq_true. unfold py_in. simpl.
    rewrite orb_false_r, orb_true_iff, !py_eq_true. tauto.
Qed.

(** The scenario numbers run from 1 upwards in generation order. *)
Lemma scenario_id_number_from n ts :
  map scenario_id (number_from (scenario_of self) n ts)
  = map (fun i => n + Z.of_nat i) (seq 0 (length ts)).
Proof.
  revert n. induction ts as [|[[a v] c] ts IH]; intros n; simpl.
  - reflexivity.
  - rewrite IH. f_equal; [lia|].
    rewrite <- seq_shift, map_map. apply map_ext. intros i. lia.
Qed.

(** C5: the generated sequence does not depend on the policy object it is
    called on, so any two calls return the same scenarios in the same
    order; the scenario numbers are 1 to 64 in that order and the triples
    are the cross-product in its fixed order. *)
Theorem generate_all_scenarios_deterministic :
  forall self' : AuthorizationPolicy,
    generate_all_scenarios self = generate_all_scenarios self'
    /\ map scenario_id (generate_all_scenarios self)
       = map Z.of_nat (seq 1 64)
    /\ map triple (generate_all_scenarios self) = triples
    /\ map expected_result (generate_all_scenarios self)
       = map expected_result (generate_all_scenarios self').
Proof.
  intros self'.
  assert (Heq : generate_all_scenarios self = generate_all_scenarios self').
  { unfold generate_all_scenarios. reflexivity. }
  split; [exact Heq|].
  split.
  - rewrite generate_all_scenarios_eq, scenario_id_number_from.
    reflexivity.
  - split; [|rewrite Heq; reflexivity].
    rewrite generate_all_scenarios_eq. apply triple_number_from.
Qed.

End Generator.

(** * Properties of the fixture set-up *)

Section Fixtures.

Import Framework.

Lemma bind_returned {S A B} (m : M S A) (k : A -> M S B) s a s' :
  m s = (Returned a, s') -> bind m k s = k a s'.
Proof. intros H. unfold bind. rewrite H. reflexivity. Qed.

Lemma lift_returned {S W A} (m : M W A) (s : S) w a w' :
  m w = (Returned a, w') -> lift m (s, w) = (Returned a, (s, w')).
Proof. intros H. unfold lift. rewrite H. reflexivity. Qed.

(** One step of a framework method: a client call that returned. *)
Ltac run_step H :=
  erewrite bind_returned by (apply lift_returned; exact H).

(** The server's payloads are JSON objects or plain text, which the client
    can always wrap. *)
Lemma flask_call_returns req srv :
  exists wr srv', Client.call Flask.transport req srv = (Returned wr, srv').
Proof.
  unfold Client.call, bind, Flask.transport.
  destruct (Flask.handle req srv) as [resp srv'] eqn:Hh.
  assert (Hp : (exists fields, payload resp = Json (JObj fields))
               \/ exists t, payload resp = Text t).
  { destruct req; cbn [Flask.handle] in Hh;
      unfold Flask.reset_api, Flask.create_user, Flask.create_file,
        Flask.get_file, Flask.update_file, Flask.delete_file,
        Flask.share_file, Flask.authorize_check, Flask.reply in Hh;
      repeat match type of Hh with
             | context [if ?b then _ else _] => destruct b
             | context [let '(_, _) := ?p in _] => destruct p
             | context [match ?x with _ => _ end] => destruct x
             end;
      inversion Hh; subst; cbn; eauto. }
  unfold Client._wrap_response.
  destruct Hp as [[fields ->] | [t ->]]; eauto.
Qed.

(** A well-formed [POST /users] always creates the user, under the next
    identifier. *)
Lemma flask_create_user e o n srv :
  Flask.missing e = false -> Flask.missing o = false ->
  Flask.missing n = false ->
  exists wr srv',
    Client.create_user Flask.transport e o n srv = (Returned wr, srv')
    /\ Client.data wr
       = JObj [("user_id", JStr (Flask.uuid4 srv (Flask.drawn srv)));
               ("email", JStr e)]
    /\ Flask.uuid4 srv' = Flask.uuid4 srv
    /\ Flask.drawn srv' = S (Flask.drawn srv)
    /\ (forall k,
          k = Flask.uuid4 srv (Flask.drawn srv)
          \/ is_Some (Store.users (Flask.api srv) !! k) ->
          is_Some (Store.users (Flask.api srv') !! k)).
Proof.
  intros He Ho Hn.
  unfold Client.create_user, Client.call, bind, Flask.transport.
  cbn [Flask.handle]. unfold Flask.create_user. rewrite He, Ho, Hn.
  cbn -[lookup insert]. do 2 eexists. repeat split.
  intros k Hk. apply lookup_insert_is_Some'.
  destruct Hk as [-> | Hk]; auto.
Qed.

(** A [POST /files] by a known owner with a recognised visibility creates
    the file under the next identifier and leaves the users alone. *)
Lemma flask_create_file owner name vis content srv :
  Flask.missing owner = false -> Flask.missing name = false ->
  Flask.missing vis = false ->
  py_in vis ["private"; "shared"; "org_public"; "public"] = true ->
  is_Some (Store.users (Flask.api srv) !! owner) ->
  exists wr srv',
    Client.create_file Flask.transport owner name vis content srv
    = (Returned wr, srv')
    /\ Client.data wr
       = JObj [("file_id", JStr (Flask.uuid4 srv (Flask.drawn srv)));
               ("name", JStr name); ("visibility", JStr vis)]
    /\ Flask.uuid4 srv' = Flask.uuid4 srv
    /\ Flask.drawn srv' = S (Flask.drawn srv)
    /\ Store.users (Flask.api srv') = Store.users (Flask.api srv).
Proof.
  intros Ho Hn Hv Hin [u Hu].
  unfold Client.create_file, Client.call, bind, Flask.transport.
  cbn [Flask.handle]. unfold Flask.create_file. rewrite Ho, Hn, Hv.
  cbn [orb]. unfold Store.create_file. rewrite Hu, Hin.
  cbn. eauto 10.
Qed.

(** [setup_test_fixtures] against the server: when the first identifier
    that the server draws is not empty, the set-up completes and binds the
    four roles to the next four identifiers and the four visibilities to
    the four after them. *)
Lemma setup_test_fixtures_bindings fw0 srv0 :
  let g := Flask.uuid4 srv0 in
  let d := Flask.drawn srv0 in
  g d <> EmptyString ->
  exists srv,
    setup_test_fixtures Flask.transport (fw0, srv0)
    = (Returned tt,
       (set_files
          (set_users fw0
             (<["external" := g (3 + d)%nat]>
                (<["org_member" := g (2 + d)%nat]>
                   (<["collaborator" := g (1 + d)%nat]>
                      (<["owner" := g d]> ∅)))))
          (<["public" := g (7 + d)%nat]>
             (<["org_public" := g (6 + d)%nat]>
                (<["shared" := g (5 + d)%nat]>
                   (<["private" := g (4 + d)%nat]> ∅)))),
        srv)).
Proof.
  intros g d Hne. apply py_eq_false in Hne.
  unfold setup_test_fixtures.
  destruct (flask_call_returns POST_reset srv0) as (wr & s0 & E0).
  assert (Hg0 : Flask.uuid4 s0 = g /\ Flask.drawn s0 = d).
  { unfold Client.call, bind, Flask.transport in E0. cbn in E0.
    inversion E0; subst. auto. }
  destruct Hg0 as (Hg0 & Hd0).
  run_step E0.
  destruct (flask_create_user "owner@acme.com" "org-acme" "Test Owner" s0)
    as (w1 & s1 & E1 & D1 & Hg1 & Hd1 & Hu1); try reflexivity.
  run_step E1.
  destruct (flask_create_user "collab@acme.com" "org-acme"
              "Test Collaborator" s1)
    as (w2 & s2 & E2 & D2 & Hg2 & Hd2 & Hu2); try reflexivity.
  run_step E2.
  destruct (flask_create_user "orgmember@acme.com" "org-acme"
              "Test OrgMember" s2)
    as (w3 & s3 & E3 & D3 & Hg3 & Hd3 & Hu3); try reflexivity.
  run_step E3.
  destruct (flask_create_user "external@other.com" "org-external"
              "Test External" s3)
    as (w4 & s4 & E4 & D4 & Hg4 & Hd4 & Hu4); try reflexivity.
  run_step E4.
  rewrite Hg3, Hg2, Hg1, Hg0 in *. rewrite Hd3, Hd2, Hd1, Hd0 in *.
  rewrite D1, D2, D3, D4.
  assert (Howner : is_Some (Store.users (Flask.api s4) !! g d)) by auto 10.
  clear Hu1 Hu2 Hu3 Hu4 E0 E1 E2 E3 E4 D1 D2 D3 D4.
  cbn -[lookup insert].
  match goal with |- context [set_users fw0 ?m] => set (U := m) end.
  unfold bind at 1, getitem.
  replace (U !! "owner") with (Some (g d)) by reflexivity.
  cbn [ret].
  destruct (flask_create_file (g d) "test-private.txt" "private"
              "Private content" s4)
    as (f1 & t1 & F1 & C1 & Gg1 & Gd1 & Gu1); try reflexivity; try assumption.
  rewrite <- Gu1 in Howner.
  run_step F1.
  destruct (flask_create_file (g d) "test-shared.txt" "shared"
              "Shared content" t1)
    as (f2 & t2 & F2 & C2 & Gg2 & Gd2 & Gu2); try reflexivity; try assumption.
  rewrite <- Gu2 in Howner.
  run_step F2.
  destruct (flask_create_file (g d) "test-org.txt" "org_public"
              "Org content" t2)
    as (f3 & t3 & F3 & C3 & Gg3 & Gd3 & Gu3); try reflexivity; try assumption.
  rewrite <- Gu3 in Howner.
  run_step F3.
  destruct (flask_create_file (g d) "test-public.txt" "public"
              "Public content" t3)
    as (f4 & t4 & F4 & C4 & Gg4 & Gd4 & Gu4); try reflexivity; try assumption.
  run_step F4.
  rewrite Gg3, Gg2, Gg1, Hg4 in *. rewrite Gd3, Gd2, Gd1, Hd4 in *.
  rewrite C1, C2, C3, C4.
  cbn -[lookup insert U].
  match goal with |- context [set_files _ ?m] => set (F := m) end.
  replace (U !! "collaborator") with (Some (g (S d))) by reflexivity.
  replace (F !! "shared") with (Some (g (5 + d)%nat)) by reflexivity.
  replace (F !! "private") with (Some (g (4 + d)%nat)) by reflexivity.
  cbn [ret].
  unfold bind at 1. cbn [ret]. unfold bind at 1. cbn [ret].
  destruct (flask_call_returns
              (POST_share (g (5 + d)%nat) (g d) (g (S d)) "edit") t4)
    as (x1 & y1 & S1).
  run_step S1.
  unfold bind at 1. cbn [ret].
  destruct (flask_call_returns
              (POST_share (g (4 + d)%nat) (g d) (g (S d)) "edit") y1)
    as (x2 & y2 & S2).
  run_step S2.
  exists y2. reflexivity.
Qed.

End Fixtures.

(** * Properties of the differential oracle *)

Section OracleProperties.

Import Framework.

(** The server never writes its state while answering [/authorize]. *)
Lemma authorize_check_frame f u a srv :
  snd (Flask.authorize_check f u a srv) = srv.
Proof.
  unfold Flask.authorize_check.
  destruct (Flask.missing f || Flask.missing u || Flask.missing a);
    [reflexivity|].
  destruct (Store._check_authorization f u a (Flask.api srv)) as [b|e];
    reflexivity.
Qed.

(** What the client's [check_authorization] makes of the server's answer. *)
Lemma check_authorization_flask f u srv log :
  Client.check_authorization (recording Flask.transport) f u "delete"
    (srv, log)
  = (Returned (bool_decide (delete_verdict f u srv = "ALLOW")),
     (srv, (log ++ [POST_authorize f u "delete"])%list)).
Proof.
  unfold Client.check_authorization, bind, recording, Flask.transport,
    Flask.handle, Flask.authorize_check, delete_verdict.
  replace (Flask.missing "delete") with false by reflexivity.
  rewrite orb_false_r.
  destruct (Flask.missing f || Flask.missing u); [reflexivity|].
  destruct (Store._check_authorization f u "delete" (Flask.api srv))
    as [[|]|e]; reflexivity.
Qed.

(** On a [delete] action the oracle's only exchange with any subject is
    one [/authorize] request. *)
Lemma execute_delete_is_check {W} (send : Request -> M W Response)
    self f u :
  execute_api_action send self f u "delete"
  = bind (Client.check_authorization send f u "delete")
      (fun authorized => ret (if authorized : bool then "ALLOW" else "DENY")).
Proof. reflexivity. Qed.

(** On a [delete] scenario with bound fixtures the oracle's only exchange
    with any subject is one [/authorize] request. *)
Lemma delete_request {W : Type} (send : Request -> M W Response)
    (self : AuthorizationTestFramework) (scenario : Policy.Scenario)
    (u f : string) (w : W) (log : list Request) :
  Policy.action scenario = "delete" ->
  users self !! Policy.audience scenario = Some u ->
  files self !! Policy.visibility scenario = Some f ->
  snd (snd (test_scenario (recording send) self scenario (w, log)))
  = (log ++ [POST_authorize f u "delete"])%list.
Proof.
  intros Hact Hu Hf.
  unfold test_scenario, bind at 1, getitem. rewrite Hu. cbn [ret].
  unfold bind at 1. rewrite Hf. cbn [ret].
  rewrite Hact, execute_delete_is_check.
  unfold Client.check_authorization, bind, ret, recording.
  destruct (send (POST_authorize f u "delete") w) as [[r|x] w'];
    [|reflexivity].
  destruct (payload r) as [[]|t]; reflexivity.
Qed.

(** C8: a scenario whose action is [delete], run with bound fixtures,
    sends exactly one request to the subject, whatever the subject is:
    the [/authorize] query (so never a [DELETE] request). Against the
    server the scenario returns a result, the whole server state (users,
    files with their contents, permissions, organizations) is as it was,
    and the observed decision is the answer of the store's authorization
    check. *)
Theorem delete_scenario_only_checks_authorization :
  forall (self : AuthorizationTestFramework) (scenario : Policy.Scenario)
         (u f : string) (srv : Flask.Server) (log : list Request),
    Policy.action scenario = "delete" ->
    users self !! Policy.audience scenario = Some u ->
    files self !! Policy.visibility scenario = Some f ->
    (exists result,
       test_scenario (recording Flask.transport) self scenario (srv, log)
       = (Returned result,
          (srv, (log ++ [POST_authorize f u "delete"])%list))
       /\ actual result = delete_verdict f u srv)
    /\ (forall (W : Type) (send : Request -> M W Response) w log',
          snd (snd (test_scenario (recording send) self scenario (w, log')))
          = (log' ++ [POST_authorize f u "delete"])%list).
Proof.
  intros self scenario u f srv log Hact Hu Hf. split.
  - unfold test_scenario, bind at 1, getitem. rewrite Hu. cbn [ret].
    unfold bind at 1. rewrite Hf. cbn [ret].
    rewrite Hact, execute_delete_is_check.
    unfold bind. rewrite check_authorization_flask. cbn [ret].
    eexists. split; [reflexivity|]. cbn [actual].
    unfold delete_verdict.
    destruct (Flask.missing f || Flask.missing u); [reflexivity|].
    destruct (Store._check_authorization f u "delete" (Flask.api srv))
      as [[|]|e]; reflexivity.
  - intros W send w log'. apply delete_request; assumption.
Qed.

(** On a [share] scenario with bound fixtures the oracle's only exchange
    with any subject is one share request, whose target is the identifier
    bound to the [external] role. *)
Lemma share_request {W : Type} (send : Request -> M W Response)
    (self : AuthorizationTestFramework) (scenario : Policy.Scenario)
    (u f e : string) (w : W) (log : list Request) :
  Policy.action scenario = "share" ->
  users self !! Policy.audience scenario = Some u ->
  files self !! Policy.visibility scenario = Some f ->
  users self !! "external" = Some e ->
  snd (snd (test_scenario (recording send) self scenario (w, log)))
  = (log ++ [POST_share f u e "read"])%list.
Proof.
  intros Hact Hu Hf He.
  unfold test_scenario, bind at 1, getitem. rewrite Hu. cbn [ret].
  unfold bind at 1. rewrite Hf. cbn [ret].
  rewrite Hact. unfold execute_api_action.
  cbn [py_eq String.eqb Ascii.eqb Bool.eqb].
  unfold getitem. rewrite He.
  unfold Client.share_file, Client.call, bind, ret, recording.
  destruct (send (POST_share f u e "read") w) as [[r|x] w']; [|reflexivity].
  unfold Client._wrap_response.
  destruct (payload r) as [[]|t]; reflexivity.
Qed.

(** A generated scenario takes its audience, visibility and action from
    the three enumerations. *)
Lemma generated_triple p scenario :
  scenario ∈ Policy.generate_all_scenarios p ->
  Policy.audience scenario ∈ Policy.audiences
  /\ Policy.visibility scenario ∈ Policy.visibilities
  /\ Policy.action scenario ∈ Policy.actions.
Proof.
  intros Hin. apply triples_spec. fold (triple scenario).
  rewrite <- (triple_number_from p 1 triples), <- generate_all_scenarios_eq.
  apply list_elem_of_In, in_map, list_elem_of_In, Hin.
Qed.

(** C6, as amended: after [setup_test_fixtures] against the server, every
    generated scenario whose action is [share] has its audience and its
    visibility bound, and running it against any subject sends exactly one
    request: the share of the scenario's file by the scenario's principal,
    granting [read] to the identifier bound to the [external] role, which
    is the fourth identifier drawn by the server. For the scenarios of the
    [external] audience that target is the acting principal itself; for
    the other audiences it differs from the acting principal as soon as
    the four user identifiers are pairwise different. *)
Theorem share_scenario_targets_external :
  forall (fw0 : AuthorizationTestFramework) (srv0 : Flask.Server)
         (p : Policy.AuthorizationPolicy) (scenario : Policy.Scenario),
    let g := Flask.uuid4 srv0 in
    let d := Flask.drawn srv0 in
    g d <> EmptyString ->
    scenario ∈ Policy.generate_all_scenarios p ->
    Policy.action scenario = "share" ->
    exists fw srv u f,
      setup_test_fixtures Flask.transport (fw0, srv0)
      = (Returned tt, (fw, srv))
      /\ users fw !! "external" = Some (g (3 + d)%nat)
      /\ users fw !! Policy.audience scenario = Some u
      /\ files fw !! Policy.visibility scenario = Some f
      /\ (forall (W : Type) (send : Request -> M W Response) w log,
            snd (snd (test_scenario (recording send) fw scenario (w, log)))
            = (log ++ [POST_share f u (g (3 + d)%nat) "read"])%list)
      /\ (Policy.audience scenario = "external" -> u = g (3 + d)%nat)
      /\ (Policy.audience scenario <> "external" ->
          NoDup [g d; g (1 + d)%nat; g (2 + d)%nat; g (3 + d)%nat] ->
          u <> g (3 + d)%nat).
Proof.
  intros fw0 srv0 p scenario g d Hne Hgen Hact.
  destruct (setup_test_fixtures_bindings fw0 srv0 Hne) as [srv Hsetup].
  fold g d in Hsetup.
  destruct (generated_triple p scenario Hgen) as (Ha & Hv & _).
  set (fw := set_files _ _) in Hsetup.
  assert (He : users fw !! "external" = Some (g (3 + d)%nat)) by reflexivity.
  assert (Hu : exists u,
             users fw !! Policy.audience scenario = Some u
             /\ (Policy.audience scenario = "external" -> u = g (3 + d)%nat)
             /\ (Policy.audience scenario <> "external" ->
                 NoDup [g d; g (1 + d)%nat; g (2 + d)%nat; g (3 + d)%nat] ->
                 u <> g (3 + d)%nat)).
  { unfold Policy.audiences in Ha.
    rewrite !elem_of_cons, elem_of_nil in Ha.
    destruct Ha as [Ha | [Ha | [Ha | [Ha | []]]]]; rewrite Ha;
      eexists; (split; [reflexivity|]); (split; [try discriminate; auto|]);
      intros Hx Hnd; try congruence;
      rewrite !NoDup_cons, !not_elem_of_cons in Hnd;
      intros Heq; rewrite Heq in Hnd; tauto. }
  assert (Hf : exists f, files fw !! Policy.visibility scenario = Some f).
  { unfold Policy.visibilities in Hv.
    rewrite !elem_of_cons, elem_of_nil in Hv.
    destruct Hv as [Hv | [Hv | [Hv | [Hv | []]]]]; rewrite Hv;
      eexists; reflexivity. }
  destruct Hu as (u & Hu & Hext & Hother). destruct Hf as (f & Hf).
  exists fw, srv, u, f.
  repeat split; try assumption.
  intros W send w log. apply share_request; assumption.
Qed.

(** The status mapping of the [read] and [edit] branches: a response that
    the client can wrap and whose status is none of 200, 201 and 403 is
    observed as "ERROR". *)
Lemma unexpected_status_observed_as_error {W : Type}
    (send : Request -> M W Response) self f u a w r w' :
  a = "read" \/ a = "edit" ->
  send (if py_eq a "read" then GET_file f u
        else PUT_file f u "Updated content") w = (Returned r, w') ->
  (exists fields, payload r = Json (JObj fields))
  \/ (exists t, payload r = Text t) ->
  status r <> 200 -> status r <> 201 -> status r <> 403 ->
  execute_api_action send self f u a w = (Returned "ERROR", w').
Proof.
  intros Ha Hsend Hp H200 H201 H403.
  assert (Hn : forall wr, Client.status_code wr = status r ->
                          normalize (Some wr) = "ERROR").
  { intros wr Hs. unfold normalize. rewrite Hs.
    apply Z.eqb_neq in H200, H201, H403.
    rewrite H200, H201, H403. reflexivity. }
  destruct Ha as [-> | ->]; cbn [py_eq String.eqb Ascii.eqb Bool.eqb] in Hsend;
    unfold execute_api_action; cbn [py_eq String.eqb Ascii.eqb Bool.eqb];
    unfold Client.get_file, Client.update_file, Client.call, bind;
    rewrite Hsend; unfold Client._wrap_response;
    destruct Hp as [[fields ->] | [t ->]]; cbn [ret];
    rewrite Hn by reflexivity; reflexivity.
Qed.

(** C3: the [delete] branch of the oracle returns before the status
    mapping. Against a subject that answers status 503 with a body that is
    not JSON, [read] and [edit] (and [share]) are observed as "ERROR", but
    [delete] is observed as "DENY"; no subject at all can make [delete]
    come out as "ERROR"; and the [delete] scenario 19, which expects
    "DENY", passes against that broken subject. A transport exception is
    not turned into a decision: it leaves [execute_api_action] as an
    exception. *)
Theorem delete_fault_observed_as_deny :
  (forall self f u,
     execute_api_action unavailable self f u "delete" tt
     = (Returned "DENY", tt))
  /\ (forall self f u,
        execute_api_action unavailable self f u "read" tt
        = (Returned "ERROR", tt))
  /\ (forall self f u,
        execute_api_action unavailable self f u "edit" tt
        = (Returned "ERROR", tt))
  /\ (forall f u,
        execute_api_action unavailable sample_fixtures f u "share" tt
        = (Returned "ERROR", tt))
  /\ (forall (W : Type) (send : Request -> M W Response) self f u w,
        fst (execute_api_action send self f u "delete" w)
        <> Returned "ERROR")
  /\ (exists r,
        test_scenario unavailable sample_fixtures scenario_19 tt
        = (Returned r, tt)
        /\ expected r = "DENY" /\ actual r = "DENY" /\ passed r = true)
  /\ (forall self f u,
        execute_api_action unreachable self f u "read" tt
        = (Raised (RequestException "ConnectionError"), tt)).
Proof.
  repeat split; try reflexivity.
  - intros W send self f u w. rewrite execute_delete_is_check.
    unfold bind, Client.check_authorization, bind, ret.
    destruct (send (POST_authorize f u "delete") w) as [[r|x] w'];
      [|discriminate].
    destruct (payload r) as [[| | | | |fields]|t]; try discriminate.
    destruct (truthy _); discriminate.
  - eexists. repeat split; vm_compute; reflexivity.
Qed.

End OracleProperties.

Lemma delete_scenario_only_checks_authorization_witness :
  (exists result,
     Framework.test_scenario (recording Flask.transport) sample_fixtures
       scenario_19 (sample_subject, [])
     = (Returned result,
        (sample_subject, [POST_authorize "uuid-4" "uuid-1" "delete"]))
     /\ Framework.actual result
        = delete_verdict "uuid-4" "uuid-1" sample_subject)
  /\ (forall (W : Type) (send : Request -> M W Response) w log',
        snd (snd (Framework.test_scenario (recording send) sample_fixtures
                    scenario_19 (w, log')))
        = (log' ++ [POST_authorize "uuid-4" "uuid-1" "delete"])%list).
Proof.
  apply (delete_scenario_only_checks_authorization sample_fixtures
           scenario_19 "uuid-1" "uuid-4" sample_subject []);
    vm_compute; reflexivity.
Defined.

Lemma share_scenario_targets_external_witness :
  exists fw srv u f,
    Framework.setup_test_fixtures Flask.transport
      (Framework.init, sample_server)
    = (Returned tt, (fw, srv))
    /\ Framework.users fw !! "external" = Some "uuid-3"
    /\ Framework.users fw !! Policy.audience scenario_52 = Some u
    /\ Framework.files fw !! Policy.visibility scenario_52 = Some f
    /\ (forall (W : Type) (send : Request -> M W Response) w log,
          snd (snd (Framework.test_scenario (recording send) fw scenario_52
                      (w, log)))
          = (log ++ [POST_share f u "uuid-3" "read"])%list)
    /\ (Policy.audience scenario_52 = "external" -> u = "uuid-3")
    /\ (Policy.audience scenario_52 <> "external" ->
        NoDup ["uuid-0"; "uuid-1"; "uuid-2"; "uuid-3"] ->
        u <> "uuid-3").
Proof.
  apply (share_scenario_targets_external Framework.init sample_server
           Policy.init scenario_52).
  - compute_done.
  - compute_done.
  - reflexivity.
Defined.

(** C6, as stated, fails: in scenario 52 (external, private, share) the
    principal that shares and the principal that receives the permission
    are the same identifier. *)
Lemma share_target_is_acting_principal :
  ~ (forall scenario,
       scenario ∈ Policy.generate_all_scenarios Policy.init ->
       Policy.action scenario = "share" ->
       forall f u t p,
         POST_share f u t p
           ∈ snd (snd (Framework.test_scenario (recording Flask.transport)
                         sample_fixtures scenario (sample_subject, []))) ->
         t <> u).
Proof.
  intros H.
  assert (Hin : scenario_52 ∈ Policy.generate_all_scenarios Policy.init)
    by compute_done.
  apply (H scenario_52 Hin eq_refl "uuid-4" "uuid-3" "uuid-3" "read");
    [|reflexivity].
  vm_compute. apply list_elem_of_here.
Qed.

(** * Properties of the result aggregation *)

Section Aggregator.

Import Framework.

(** The first loop of [analyze_results] selects, in order, the failed
    results of each of the two severity patterns. *)
Lemma categorize_fold rs p q :
  fold_left categorize rs (p, q)
  = ((p ++ List.filter
             (fun r => negb (passed r)
                       && (py_eq (expected r) "DENY"
                           && py_eq (actual r) "ALLOW")) rs)%list,
     (q ++ List.filter
             (fun r => negb (passed r)
                       && (py_eq (expected r) "ALLOW"
                           && py_eq (actual r) "DENY")) rs)%list).
Proof.
  revert p q. induction rs as [|r rs IH]; intros p q.
  - simpl. rewrite !app_nil_r. reflexivity.
  - cbn [fold_left List.filter]. unfold categorize at 2.
    destruct (passed r); cbn [negb andb]; [apply IH|].
    destruct (py_eq_spec (expected r) "DENY") as [Hd|Hd];
      destruct (py_eq (actual r) "ALLOW"); cbn [andb];
      try (rewrite IH, <- app_assoc; cbn [app];
           rewrite Hd; reflexivity).
    all: destruct (py_eq (expected r) "ALLOW" && py_eq (actual r) "DENY");
      rewrite IH, <- ?app_assoc; reflexivity.
Qed.

(** A grouping loop leaves, under each key, the failed results with that
    key in order (after what the key held before), and creates no empty
    group. *)
Lemma group_by_fold (key : TestResult -> string) rs
    (m : gmap string (list TestResult)) k :
  fold_left (group_by key) rs m !! k
  = match m !! k, failures_with key k rs with
    | None, [] => None
    | None, fs => Some fs
    | Some l, fs => Some (l ++ fs)%list
    end.
Proof.
  revert m. induction rs as [|r rs IH]; intros m.
  - simpl. destruct (m !! k); [rewrite app_nil_r|]; reflexivity.
  - cbn [fold_left]. rewrite IH. unfold failures_with.
    cbn [List.filter]. unfold group_by.
    destruct (passed r); cbn [negb andb]; [reflexivity|].
    destruct (py_eq_spec (key r) k) as [Hk|Hk].
    + subst k. rewrite lookup_insert_eq.
      destruct (m !! key r) as [l|] eqn:Hm.
      * rewrite Hm. cbn [default]. rewrite <- app_assoc. reflexivity.
      * rewrite lookup_insert_eq. reflexivity.
    + rewrite lookup_insert_ne by assumption.
      destruct (m !! key r) as [l|] eqn:Hm.
      * reflexivity.
      * rewrite lookup_insert_ne by assumption. reflexivity.
Qed.

(** A failed result is listed in the group of its own key. *)
Lemma group_by_member (key : TestResult -> string) rs r :
  r ∈ rs -> passed r = false ->
  fold_left (group_by key) rs ∅ !! key r
  = Some (failures_with key (key r) rs)
  /\ r ∈ failures_with key (key r) rs.
Proof.
  intros Hin Hp.
  assert (Hmem : r ∈ failures_with key (key r) rs).
  { unfold failures_with. apply list_elem_of_In, filter_In.
    split; [apply list_elem_of_In; assumption|].
    rewrite Hp, py_eq_refl. reflexivity. }
  split; [|assumption].
  rewrite group_by_fold, lookup_empty.
  destruct (failures_with key (key r) rs); [|reflexivity].
  inversion Hmem.
Qed.

(** Every generated scenario expects "ALLOW" or "DENY". *)
Lemma generated_expectation p scenario :
  scenario ∈ Policy.generate_all_scenarios p ->
  Policy.expected_result scenario = "ALLOW"
  \/ Policy.expected_result scenario = "DENY".
Proof.
  rewrite generate_all_scenarios_eq. revert scenario.
  apply Forall_forall, Forall_number_from.
  intros m [[a v] c]. apply evaluate_decision.
Qed.

(** What [test_scenario] records when it returns. *)
Lemma test_scenario_result {W} (send : Request -> M W Response)
    self sc w r w' :
  test_scenario send self sc w = (Returned r, w') ->
  scenario r = sc
  /\ scenario_id r = Policy.scenario_id sc
  /\ expected r = Policy.expected_result sc
  /\ passed r = py_eq (expected r) (actual r).
Proof.
  unfold test_scenario, bind, getitem, ret, raise.
  destruct (users self !! Policy.audience sc); [|discriminate].
  destruct (files self !! Policy.visibility sc); [|discriminate].
  destruct (execute_api_action send self _ _ _ w) as [[act|x] w1];
    [|discriminate].
  intros [= <- _]. repeat split.
Qed.

(** C4, as amended: a result that [test_scenario] records for a generated
    scenario with the observed decision "ERROR" has [passed] false; in any
    analysis of results that contain it, it is in neither the
    over-permissive nor the over-restrictive list; it is reported only as
    one of the failures, in the group of its audience and in the group of
    its action (and so counted in [failed]). The analysis has no class of
    its own for such results. *)
Theorem error_result_is_plain_failure :
  forall {W : Type} (send : Request -> M W Response)
         (self fw : AuthorizationTestFramework)
         (p : Policy.AuthorizationPolicy) (sc : Policy.Scenario)
         (w w' : W) (r : TestResult),
    sc ∈ Policy.generate_all_scenarios p ->
    test_scenario send self sc w = (Returned r, w') ->
    actual r = "ERROR" ->
    r ∈ test_results fw ->
    passed r = false
    /\ (r ∉ over_permissive (analyze_results fw))
    /\ (r ∉ over_restrictive (analyze_results fw))
    /\ (r ∈ get_failed_scenarios fw)
    /\ (failures_by_audience (analyze_results fw) !! Policy.audience sc
        = Some (failures_with (fun r => Policy.audience (scenario r))
                  (Policy.audience sc) (test_results fw))
        /\ r ∈ failures_with (fun r => Policy.audience (scenario r))
                 (Policy.audience sc) (test_results fw))
    /\ (failures_by_action (analyze_results fw) !! Policy.action sc
        = Some (failures_with (fun r => Policy.action (scenario r))
                  (Policy.action sc) (test_results fw))
        /\ r ∈ failures_with (fun r => Policy.action (scenario r))
                 (Policy.action sc) (test_results fw)).
Proof.
  intros W send self fw p sc w w' r Hgen Hrun Herr Hin.
  apply test_scenario_result in Hrun as (Hsc & _ & Hexp & Hpass).
  assert (Hp : passed r = false).
  { rewrite Hpass, Herr, Hexp.
    destruct (generated_expectation p sc Hgen) as [-> | ->]; reflexivity. }
  split; [exact Hp|].
  unfold analyze_results. cbn [over_permissive over_restrictive
    failures_by_audience failures_by_action].
  rewrite categorize_fold. cbn [fst snd app].
  split; [|split; [|split; [|split]]].
  - rewrite list_elem_of_In, filter_In, Herr. intros [_ H].
    rewrite !andb_true_iff in H. destruct H as (_ & _ & H). discriminate H.
  - rewrite list_elem_of_In, filter_In, Herr. intros [_ H].
    rewrite !andb_true_iff in H. destruct H as (_ & _ & H). discriminate H.
  - unfold get_failed_scenarios. apply list_elem_of_In, filter_In.
    split; [apply list_elem_of_In; exact Hin | rewrite Hp; reflexivity].
  - rewrite <- Hsc.
    apply (group_by_member (fun r => Policy.audience (scenario r)));
      assumption.
  - rewrite <- Hsc.
    apply (group_by_member (fun r => Policy.action (scenario r)));
      assumption.
Qed.

End Aggregator.

Lemma error_result_is_plain_failure_witness :
  let fw := unavailable_run in
  let r := error_result scenario_1 in
  Framework.passed r = false
  /\ (r ∉ Framework.over_permissive (Framework.analyze_results fw))
  /\ (r ∉ Framework.over_restrictive (Framework.analyze_results fw))
  /\ (r ∈ Framework.get_failed_scenarios fw)
  /\ (Framework.failures_by_audience (Framework.analyze_results fw)
        !! Policy.audience scenario_1
      = Some (failures_with
                (fun r => Policy.audience (Framework.scenario r))
                (Policy.audience scenario_1) (Framework.test_results fw))
      /\ r ∈ failures_with
               (fun r => Policy.audience (Framework.scenario r))
               (Policy.audience scenario_1) (Framework.test_results fw))
  /\ (Framework.failures_by_action (Framework.analyze_results fw)
        !! Policy.action scenario_1
      = Some (failures_with
                (fun r => Policy.action (Framework.scenario r))
                (Policy.action scenario_1) (Framework.test_results fw))
      /\ r ∈ failures_with
               (fun r => Policy.action (Framework.scenario r))
               (Policy.action scenario_1) (Framework.test_results fw)).
Proof.
  intros fw r.
  apply (error_result_is_plain_failure unavailable sample_fixtures fw
           Policy.init scenario_1 tt tt r).
  - compute_done.
  - vm_compute. reflexivity.
  - reflexivity.
  - compute_done.
Defined.

(** C4, as stated, fails on its last part: after a run against the
    unavailable subject, no list that the analysis reports holds exactly
    the results observed as "ERROR", so they form no class of their
    own. *)
Lemma no_infrastructure_class :
  ~ (forall r,
       r ∈ Framework.test_results unavailable_run ->
       Framework.actual r = "ERROR" ->
       Framework.passed r = false
       /\ (r ∉ Framework.over_permissive
                 (Framework.analyze_results unavailable_run))
       /\ (r ∉ Framework.over_restrictive
                 (Framework.analyze_results unavailable_run))
       /\ exists g,
            g ∈ reported_groups (Framework.analyze_results unavailable_run)
            /\ forall r',
                 r' ∈ g
                 <-> (r' ∈ Framework.test_results unavailable_run
                      /\ Framework.actual r' = "ERROR")).
Proof.
  intros H.
  set (rA := error_result scenario_1).
  set (rB := error_result (scenario_of Policy.init 49
                             ("external", "private", "read"))).
  set (rC := error_result (scenario_of Policy.init 2
                             ("owner", "private", "edit"))).
  assert (HA : rA ∈ Framework.test_results unavailable_run) by compute_done.
  assert (HB : rB ∈ Framework.test_results unavailable_run) by compute_done.
  assert (HC : rC ∈ Framework.test_results unavailable_run) by compute_done.
  destruct (H rA HA eq_refl) as (_ & _ & _ & g & Hg & Hiff).
  assert (HgA : rA ∈ g) by (apply Hiff; split; [exact HA | reflexivity]).
  assert (HgB : rB ∈ g) by (apply Hiff; split; [exact HB | reflexivity]).
  assert (HgC : rC ∈ g) by (apply Hiff; split; [exact HC | reflexivity]).
  assert (Hall :
    Forall (fun g => ~ (rA ∈ g /\ rB ∈ g /\ rC ∈ g))
      (reported_groups (Framework.analyze_results unavailable_run)))
    by compute_done.
  rewrite Forall_forall in Hall. apply (Hall g Hg). auto.
Qed.

(** * Further properties of the store and the server *)

Section StoreIntegrity.










End StoreIntegrity.

Section ServerReplies.





End ServerReplies.

(** * Further properties of the store's operations *)

Section StoreOperations.

(** Unfolding of the four file routes down to the store. *)
Ltac unfold_routes :=
  cbn [Flask.handle];
  unfold Flask.get_file, Flask.update_file, Flask.delete_file,
    Flask.share_file, Flask.reply, Store.get_file, Store.update_file,
    Store.delete_file, Store.share_file, Store.authorized, Flask.with_api.

(** X4: a delete answered with status 200 removes the file and every
    permission on it, and nothing else: the other files, the permissions
    on the other files, the users and the organizations are as before. *)
Theorem delete_removes_file_and_its_permissions :
  forall (f u : string) (srv : Flask.Server),
    status (fst (Flask.handle (DELETE_file f u) srv)) = 200 ->
    let s := Flask.api srv in
    let s' := Flask.api (snd (Flask.handle (DELETE_file f u) srv)) in
    Store.files s' !! f = None
    /\ (forall u', Store.permissions s' !! (f, u') = None)
    /\ (forall f', f' <> f ->
          Store.files s' !! f' = Store.files s !! f'
          /\ forall u',
               Store.permissions s' !! (f', u')
               = Store.permissions s !! (f', u'))
    /\ Store.users s' = Store.users s
    /\ Store.organizations s' = Store.organizations s.
Proof.
  intros f u srv. unfold_routes.
  destruct (Flask.missing u); [discriminate|].
  destruct (Store.files (Flask.api srv) !! f); [|discriminate].
  destruct (Store._check_authorization f u "delete" (Flask.api srv))
    as [[|]|e]; try discriminate.
  intros _. cbn. split; [apply lookup_delete_eq|].
  split.
  { intros u'. apply map_lookup_filter_None. right. intros p _ H.
    apply H. reflexivity. }
  split; [|split; reflexivity].
  intros f' Hne. split; [apply lookup_delete_ne; congruence|].
  intros u'.
  destruct (Store.permissions (Flask.api srv) !! (f', u')) as [p|] eqn:Hp.
  - apply map_lookup_filter_Some. split; [assumption | exact Hne].
  - apply map_lookup_filter_None. left. assumption.
Qed.

(** Whoever the store lets edit a file, it lets read it. *)
Lemma edit_implies_read s f u :
  Store._check_authorization f u "edit" s = Returned true ->
  Store._check_authorization f u "read" s = Returned true.
Proof.
  unfold Store._check_authorization.
  destruct (Store.files s !! f) as [file|]; [|discriminate].
  destruct (Store.users s !! u) as [user|]; [|discriminate].
  destruct (py_eq (Store.f_owner_id file) u); [reflexivity|].
  destruct (py_eq (Store.f_visibility file) "public"); [reflexivity|].
  destruct (py_eq (Store.f_visibility file) "org_public").
  - destruct (Store.users s !! Store.f_owner_id file); [|discriminate].
    destruct (py_eq _ _); cbn; discriminate.
  - destruct (Store.permissions s !! (f, u)); [reflexivity | discriminate].
Qed.

(** The check reads of a file only its owner and its visibility: writing
    the content of a file changes no decision. *)
Lemma check_after_update s f file c f2 u2 a :
  Store.files s !! f = Some file ->
  Store._check_authorization f2 u2 a
    {| Store.users := Store.users s;
       Store.files :=
         <[f := {| Store.f_file_id := Store.f_file_id file;
                   Store.f_owner_id := Store.f_owner_id file;
                   Store.f_name := Store.f_name file;
                   Store.f_visibility := Store.f_visibility file;
                   Store.f_content := c |}]> (Store.files s);
       Store.permissions := Store.permissions s;
       Store.organizations := Store.organizations s |}
  = Store._check_authorization f2 u2 a s.
Proof.
  intros Hf. unfold Store._check_authorization. cbn.
  destruct (decide (f = f2)) as [<-|Hne].
  - rewrite lookup_insert_eq, Hf. reflexivity.
  - rewrite lookup_insert_ne by assumption. reflexivity.
Qed.

(** X5: when the client's [update_file] is answered with status 200, a
    [get_file] of the same file by the same user right after it is answered
    with status 200 and carries the content just written; the read itself
    changes nothing. *)
Theorem update_then_get_returns_content :
  forall (f u c : string) (srv : Flask.Server),
    status (fst (Flask.handle (PUT_file f u c) srv)) = 200 ->
    let srv' := snd (Flask.handle (PUT_file f u c) srv) in
    exists wr,
      Client.get_file Flask.transport f u srv' = (Returned wr, srv')
      /\ Client.status_code wr = 200
      /\ content_of wr = Some (JStr c).
Proof.
  intros f u c srv. unfold_routes.
  destruct (Flask.missing u) eqn:Hu; [discriminate|].
  destruct (Store.files (Flask.api srv) !! f) as [file|] eqn:Hf;
    [|discriminate].
  destruct (Store._check_authorization f u "edit" (Flask.api srv))
    as [[|]|e] eqn:Hedit; try discriminate.
  intros _. cbn [negb fst snd].
  unfold Client.get_file, Client.call, bind, Flask.transport.
  unfold_routes. rewrite Hu. cbn [Flask.api].
  cbn [Store.files]. rewrite lookup_insert_eq.
  rewrite (check_after_update _ f file c f u "read" Hf).
  rewrite (edit_implies_read _ _ _ Hedit).
  cbn. destruct srv. eexists. repeat split.
Qed.

(** The store's decision for a principal who is not the owner, on a file
    that is neither public nor org_public: it is read off the permission,
    if there is one. *)
Lemma check_by_permission s f u a file user :
  Store.files s !! f = Some file ->
  Store.users s !! u = Some user ->
  Store.f_owner_id file <> u ->
  Store.f_visibility file <> "public" ->
  Store.f_visibility file <> "org_public" ->
  Store._check_authorization f u a s
  = Returned
      match Store.permissions s !! (f, u) with
      | Some perm =>
          py_eq a "read"
          || (py_eq a "edit"
              && (py_eq (Store.p_permission_type perm) "edit"
                  || py_eq (Store.p_permission_type perm) "read"))
          || py_eq a "share"
      | None => false
      end.
Proof.
  intros Hf Hu Ho Hp Hop. unfold Store._check_authorization.
  rewrite Hf, Hu.
  apply py_eq_false in Ho, Hp, Hop. rewrite Ho, Hp, Hop.
  destruct (Store.permissions s !! (f, u)) as [perm|]; [|reflexivity].
  destruct (py_eq_spec a "read") as [->|_]; [reflexivity|].
  destruct (py_eq_spec a "edit") as [->|_];
    [cbn; rewrite orb_false_r; reflexivity|].
  destruct (py_eq a "share"); [reflexivity|].
  destruct (py_eq a "delete"); reflexivity.
Qed.

(** What a share answered with status 200 has done. *)
Lemma share_succeeded f u t p srv :
  status (fst (Flask.handle (POST_share f u t p) srv)) = 200 ->
  Flask.missing t = false
  /\ snd (Flask.handle (POST_share f u t p) srv)
     = Flask.with_api srv
         {| Store.users := Store.users (Flask.api srv);
            Store.files := Store.files (Flask.api srv);
            Store.permissions :=
              <[(f, t) := {| Store.p_file_id := f; Store.p_user_id := t;
                             Store.p_permission_type := p |}]>
                (Store.permissions (Flask.api srv));
            Store.organizations := Store.organizations (Flask.api srv) |}.
Proof.
  unfold_routes.
  destruct (Flask.missing u); [discriminate|].
  destruct (Flask.missing t); [discriminate|].
  destruct (Store.files (Flask.api srv) !! f); [|discriminate].
  destruct (Store.users (Flask.api srv) !! t); [|discriminate].
  destruct (Store._check_authorization f u "share" (Flask.api srv))
    as [[|]|e]; try discriminate.
  intros _. split; reflexivity.
Qed.

(** The status of the four file routes for a user whose identifier is not
    empty, when the store's check returns. *)
Lemma route_status f t srv file b :
  Flask.missing t = false ->
  Store.files (Flask.api srv) !! f = Some file ->
  (Store._check_authorization f t "read" (Flask.api srv) = Returned b ->
   status (fst (Flask.handle (GET_file f t) srv))
   = if b then 200 else 403)
  /\ (forall c,
        Store._check_authorization f t "edit" (Flask.api srv) = Returned b ->
        status (fst (Flask.handle (PUT_file f t c) srv))
        = if b then 200 else 403)
  /\ (Store._check_authorization f t "delete" (Flask.api srv) = Returned b ->
      status (fst (Flask.handle (DELETE_file f t) srv))
      = if b then 200 else 403)
  /\ (forall t2 p2,
        Flask.missing t2 = false ->
        is_Some (Store.users (Flask.api srv) !! t2) ->
        Store._check_authorization f t "share" (Flask.api srv) = Returned b ->
        status (fst (Flask.handle (POST_share f t t2 p2) srv))
        = if b then 200 else 403).
Proof.
  intros Hmt Hf. repeat split.
  - intros Hc. unfold_routes. rewrite Hmt, Hf, Hc. destruct b; reflexivity.
  - intros c Hc. unfold_routes. rewrite Hmt, Hf, Hc. destruct b; reflexivity.
  - intros Hc. unfold_routes. rewrite Hmt, Hf, Hc. destruct b; reflexivity.
  - intros t2 p2 Hm2 [u2 Hu2] Hc. unfold_routes.
    rewrite Hmt, Hm2, Hf, Hu2, Hc. destruct b; reflexivity.
Qed.

(** X6: a permission on an org_public file is never consulted. After a
    share of such a file that is answered with status 200, the target
    holds a permission on the file, and yet, being of another organization
    than the owner, is still refused when reading it (status 403). *)
Theorem permission_on_org_public_file_is_ignored :
  forall (f u t p : string) (srv : Flask.Server)
         (file : Store.File) (owner target : Store.User),
    Store.files (Flask.api srv) !! f = Some file ->
    Store.f_visibility file = "org_public" ->
    Store.users (Flask.api srv) !! Store.f_owner_id file = Some owner ->
    Store.users (Flask.api srv) !! t = Some target ->
    Store.f_owner_id file <> t ->
    Store.u_organization_id target <> Store.u_organization_id owner ->
    status (fst (Flask.handle (POST_share f u t p) srv)) = 200 ->
    let srv' := snd (Flask.handle (POST_share f u t p) srv) in
    is_Some (Store.permissions (Flask.api srv') !! (f, t))
    /\ status (fst (Flask.handle (GET_file f t) srv')) = 403.
Proof.
  intros f u t p srv file owner target Hf Hv Ho Ht Hne Horg Hok srv'.
  destruct (share_succeeded f u t p srv Hok) as [Hmt Hs].
  subst srv'. rewrite Hs. clear Hs Hok.
  set (srv' := Flask.with_api srv _).
  assert (Hf' : Store.files (Flask.api srv') !! f = Some file) by exact Hf.
  split; [cbn; rewrite lookup_insert_eq; eauto|].
  apply (proj1 (route_status f t srv' file false Hmt Hf')).
  unfold Store._check_authorization. cbn [Flask.with_api Flask.api
    Store.files Store.users srv'].
  rewrite Hf, Ht, Ho, Hv.
  apply py_eq_false in Hne, Horg. rewrite Hne, Horg. reflexivity.
Qed.

(** X7: on a file that is neither public nor org_public, a share answered
    with status 200 gives its target (when not the owner) more than the
    permission type says: the target can read the file, can edit it when
    the type is [read] as well as when it is [edit], and can share the
    file on with any known user; it cannot delete the file. *)
Theorem granted_permission_allows_edit_and_share :
  forall (f u t p : string) (srv : Flask.Server)
         (file : Store.File) (target : Store.User),
    Store.files (Flask.api srv) !! f = Some file ->
    Store.users (Flask.api srv) !! t = Some target ->
    Store.f_visibility file <> "public" ->
    Store.f_visibility file <> "org_public" ->
    Store.f_owner_id file <> t ->
    status (fst (Flask.handle (POST_share f u t p) srv)) = 200 ->
    let srv' := snd (Flask.handle (POST_share f u t p) srv) in
    status (fst (Flask.handle (GET_file f t) srv')) = 200
    /\ (forall c,
          status (fst (Flask.handle (PUT_file f t c) srv'))
          = if py_in p ["edit"; "read"] then 200 else 403)
    /\ (forall t2 p2,
          t2 <> EmptyString ->
          is_Some (Store.users (Flask.api srv) !! t2) ->
          status (fst (Flask.handle (POST_share f t t2 p2) srv')) = 200)
    /\ status (fst (Flask.handle (DELETE_file f t) srv')) = 403.
Proof.
  intros f u t p srv file target Hf Ht Hv Hov Hne Hok srv'.
  destruct (share_succeeded f u t p srv Hok) as [Hmt Hs].
  subst srv'. rewrite Hs. clear Hs Hok.
  set (srv' := Flask.with_api srv _).
  assert (Hf' : Store.files (Flask.api srv') !! f = Some file) by exact Hf.
  assert (Ht' : Store.users (Flask.api srv') !! t = Some target)
    by exact Ht.
  pose proof (fun a => check_by_permission (Flask.api srv') f t a file
                         target Hf' Ht' Hne Hv Hov) as Hc.
  assert (Hp : Store.permissions (Flask.api srv') !! (f, t)
               = Some {| Store.p_file_id := f; Store.p_user_id := t;
                         Store.p_permission_type := p |})
    by apply lookup_insert_eq.
  rewrite Hp in Hc. cbn [Store.p_permission_type] in Hc.
  split; [|split; [|split]].
  - apply (proj1 (route_status f t srv' file true Hmt Hf')), Hc.
  - intros c. unfold py_in. cbn [existsb]. rewrite orb_false_r.
    apply (proj1 (proj2 (route_status f t srv' file
                           (py_eq p "edit" || py_eq p "read") Hmt Hf')) c).
    rewrite Hc. cbn. rewrite orb_false_r. reflexivity.
  - intros t2 p2 Ht2 Hu2. apply py_eq_false in Ht2.
    apply (proj2 (proj2 (proj2 (route_status f t srv' file true Hmt Hf')))
             t2 p2 Ht2 Hu2), Hc.
  - apply (proj1 (proj2 (proj2 (route_status f t srv' file false Hmt Hf')))),
      Hc.
Qed.

(** Closes a case of a comparison once every test has a value. *)
Ltac decide_case :=
  cbn; split;
  [reflexivity
  | let H1 := fresh in
    let H2 := fresh in
    intros H1 H2; first [reflexivity | discriminate H1 | discriminate H2]].

(** Case analysis on the comparisons of a string with constants. *)
Ltac case_on x :=
  repeat match goal with
         | |- context [py_eq x ?c] =>
             destruct (py_eq_spec x c) as [->|?]; cbn
         end.

(** X8: the store against the policy. For a known file and a known user,
    with the policy's flags read off the store (owner of the file, same
    organization as the owner, holder of a permission on the file) and
    permissions of type [read] or [edit], the store authorizes an action
    exactly when the policy allows it or one of three deviations applies:
    an edit of a public file, a delete of an org_public file from within
    the owner's organization, a share by a permission holder. For a
    principal who is not the owner, the policy denies each of the three. *)
Theorem store_against_policy :
  forall (self : Policy.AuthorizationPolicy) (s : Store.FileShareAPI)
         (f u a audience : string) (file : Store.File)
         (user owner : Store.User),
    Store.files s !! f = Some file ->
    Store.users s !! u = Some user ->
    Store.users s !! Store.f_owner_id file = Some owner ->
    (audience = "owner" -> Store.f_owner_id file = u) ->
    (forall perm,
       Store.permissions s !! (f, u) = Some perm ->
       Store.p_permission_type perm = "read"
       \/ Store.p_permission_type perm = "edit") ->
    let is_owner := py_eq (Store.f_owner_id file) u in
    let same_org :=
      py_eq (Store.u_organization_id user) (Store.u_organization_id owner) in
    let has_permission :=
      match Store.permissions s !! (f, u) with
      | Some _ => true
      | None => false
      end in
    let expected :=
      Policy.evaluate self audience (Store.f_visibility file) a
        is_owner has_permission same_org in
    Store._check_authorization f u a s
    = Returned
        (py_eq expected "ALLOW"
         || deviation (Store.f_visibility file) a same_org has_permission)
    /\ (is_owner = false ->
        deviation (Store.f_visibility file) a same_org has_permission = true ->
        expected = "DENY").
Proof.
  intros self s f u a audience file user owner Hf Hu Ho Haud Hperm.
  cbn zeta. unfold Store._check_authorization, Policy.evaluate, deviation,
    py_in.
  rewrite Hf, Hu, Ho.
  destruct file as [fid fo fn vis fc]. cbn [Store.f_owner_id
    Store.f_visibility] in *.
  destruct (py_eq_spec fo u) as [Heq|Hne].
  { split; [reflexivity | intros H; discriminate H]. }
  assert (Ha : py_eq audience "owner" = false).
  { apply py_eq_false. intros H. apply Hne, Haud, H. }
  rewrite Ha.
  destruct (py_eq (Store.u_organization_id user)
              (Store.u_organization_id owner));
    destruct (Store.permissions s !! (f, u)) as [perm|];
    try (destruct (Hperm perm eq_refl) as [-> | ->]);
    case_on vis; case_on a; decide_case.
Qed.

End StoreOperations.

(** * Further properties of the client and the oracle *)

Section Observation.

Import Framework.

(** X9: the client's [check_authorization] against the server answers
    [True] exactly when the three fields are not empty and the store's
    check returns [True]; an empty field (status 400) and a failing check
    (status 500) both answer [False]. The server state is untouched. *)
Theorem check_authorization_round_trip :
  forall (f u a : string) (srv : Flask.Server),
    Client.check_authorization Flask.transport f u a srv
    = (Returned
         (negb (Flask.missing f || Flask.missing u || Flask.missing a)
          && authorizes (Flask.api srv) f u a),
       srv).
Proof.
  intros f u a srv.
  unfold Client.check_authorization, bind, Flask.transport, authorizes.
  cbn [Flask.handle]. unfold Flask.authorize_check.
  destruct (Flask.missing f || Flask.missing u || Flask.missing a);
    [reflexivity|].
  destruct (Store._check_authorization f u a (Flask.api srv)) as [[|]|e];
    reflexivity.
Qed.




End Observation.

(** * Further properties of the test run *)

Section TestRun.

Import Framework.

(** Against the server every action of the oracle returns a decision. *)
Lemma execute_api_action_returns self f u a srv :
  is_Some (users self !! "external") ->
  exists d srv',
    execute_api_action Flask.transport self f u a srv = (Returned d, srv').
Proof.
  intros [e He]. unfold execute_api_action, getitem. rewrite He.
  unfold Client.get_file, Client.update_file, Client.share_file.
  destruct (py_eq a "read").
  { destruct (flask_call_returns (GET_file f u) srv) as (wr & srv' & H).
    unfold bind. rewrite H. eauto. }
  destruct (py_eq a "edit").
  { destruct (flask_call_returns (PUT_file f u "Updated content") srv)
      as (wr & srv' & H).
    unfold bind. rewrite H. eauto. }
  destruct (py_eq a "delete").
  { unfold Client.check_authorization, bind, ret, Flask.transport.
    destruct (Flask.handle (POST_authorize f u "delete") srv)
      as [resp srv'].
    destruct (payload resp) as [[]|]; eauto. }
  destruct (py_eq a "share").
  { destruct (flask_call_returns (POST_share f u e "read") srv)
      as (wr & srv' & H).
    unfold bind, ret. rewrite H. eauto. }
  eauto.
Qed.

(** With the scenario's audience and visibility and the [external] role
    bound, a scenario run against the server returns its result. *)
Lemma test_scenario_returns self sc srv :
  is_Some (users self !! Policy.audience sc) ->
  is_Some (files self !! Policy.visibility sc) ->
  is_Some (users self !! "external") ->
  exists r srv',
    test_scenario Flask.transport self sc srv = (Returned r, srv').
Proof.
  intros [u Hu] [f Hf] He.
  unfold test_scenario, bind at 1, getitem. rewrite Hu. cbn [ret].
  unfold bind at 1. rewrite Hf. cbn [ret].
  destruct (execute_api_action_returns self f u (Policy.action sc) srv He)
    as (d & srv' & H).
  unfold bind. rewrite H. cbn. eauto.
Qed.

(** The loop of [run_all_tests] against the server appends one result per
    scenario, in order, and touches nothing else of the framework. *)
Lemma run_scenarios_returns scs self acc srv :
  bound self scs ->
  is_Some (users self !! "external") ->
  exists results srv',
    run_scenarios Flask.transport scs (set_test_results self acc, srv)
    = (Returned tt, (set_test_results self (acc ++ results)%list, srv'))
    /\ map scenario results = scs
    /\ Forall
         (fun r =>
            scenario_id r = Policy.scenario_id (scenario r)
            /\ expected r = Policy.expected_result (scenario r)
            /\ passed r = py_eq (expected r) (actual r)) results.
Proof.
  intros Hb He. revert acc srv.
  induction Hb as [|sc scs [Hu Hf] _ IH]; intros acc srv.
  - exists [], srv. rewrite app_nil_r. repeat split. constructor.
  - destruct (test_scenario_returns (set_test_results self acc) sc srv
                Hu Hf He) as (r & srv1 & Hr).
    destruct (IH (acc ++ [r])%list srv1) as (rs & srv2 & Hrun & Hmap & Hall).
    exists (r :: rs), srv2.
    cbn [run_scenarios]. unfold bind at 1, self_. cbn [fst].
    unfold bind at 1, lift. rewrite Hr.
    unfold bind at 1, assign. cbn [fst snd set_test_results test_results
      policy users files].
    change (set_test_results (set_test_results self acc) (acc ++ [r])%list)
      with (set_test_results self (acc ++ [r])%list).
    rewrite Hrun, <- app_assoc. split; [reflexivity|].
    apply test_scenario_result in Hr as (Hsc & Hid & Hexp & Hpass).
    split; [cbn; rewrite Hsc, Hmap; reflexivity|].
    constructor; [|exact Hall].
    rewrite Hsc. auto.
Qed.

(** X13: with every audience and every visibility bound, a whole run
    against the server returns 64 results, one per generated scenario in
    generation order; each result carries its scenario's number and
    expected decision, and [passed] says whether the observed decision
    equals the expected one. The results are also those left in
    [self.test_results]; the bindings of the framework are untouched. *)
Theorem run_all_tests_covers_every_scenario :
  forall (self : AuthorizationTestFramework) (srv : Flask.Server),
    Forall (fun a => is_Some (users self !! a)) Policy.audiences ->
    Forall (fun v => is_Some (files self !! v)) Policy.visibilities ->
    exists results srv',
      run_all_tests Flask.transport (self, srv)
      = (Returned results, (set_test_results self results, srv'))
      /\ length results = 64%nat
      /\ map scenario results = Policy.generate_all_scenarios (policy self)
      /\ Forall
           (fun r =>
              scenario_id r = Policy.scenario_id (scenario r)
              /\ expected r = Policy.expected_result (scenario r)
              /\ passed r = py_eq (expected r) (actual r)) results.
Proof.
  intros self srv Hu Hf.
  assert (Hb : bound self (Policy.generate_all_scenarios (policy self))).
  { apply Forall_forall. intros sc Hsc.
    destruct (generated_triple _ _ Hsc) as (Ha & Hv & _).
    rewrite Forall_forall in Hu, Hf. auto. }
  assert (He : is_Some (users self !! "external")).
  { rewrite Forall_forall in Hu. apply Hu. unfold Policy.audiences.
    in_list. }
  destruct (run_scenarios_returns _ self [] srv Hb He)
    as (rs & srv' & Hrun & Hmap & Hall).
  exists rs, srv'.
  unfold run_all_tests, bind at 1, self_. cbn [fst].
  unfold bind at 1, assign. cbn [fst snd].
  unfold bind at 1. rewrite Hrun.
  unfold bind, self_, ret. cbn.
  repeat split; try assumption.
  rewrite <- (length_map scenario), Hmap, generate_all_scenarios_eq,
    length_number_from. reflexivity.
Qed.

(** The loop stops at a scenario whose audience is not bound, before any
    request is made. *)
Lemma run_scenarios_unbound {W : Type} (send : Request -> M W Response)
    sc scs self w :
  users self !! Policy.audience sc = None ->
  run_scenarios send (sc :: scs) (self, w)
  = (Raised (KeyError (Policy.audience sc)), (self, w)).
Proof.
  intros Hu. cbn [run_scenarios].
  unfold bind at 1, self_. cbn [fst].
  unfold bind at 1, lift, test_scenario, bind at 1, getitem.
  rewrite Hu. reflexivity.
Qed.

(** X14: with no identifier bound to the [owner] role, a run against any
    subject stops at the first scenario with [KeyError('owner')], before
    any request is made; the previous results of the framework have
    already been discarded. *)
Theorem run_all_tests_without_owner :
  forall {W : Type} (send : Request -> M W Response)
         (self : AuthorizationTestFramework) (w : W),
    users self !! "owner" = None ->
    run_all_tests send (self, w)
    = (Raised (KeyError "owner"), (set_test_results self [], w)).
Proof.
  intros W send self w Hu.
  assert (Hgen : exists rest,
            Policy.generate_all_scenarios (policy self)
            = scenario_of (policy self) 1 ("owner", "private", "read")
              :: rest).
  { eexists. rewrite generate_all_scenarios_eq. reflexivity. }
  destruct Hgen as [rest Hgen].
  unfold run_all_tests, bind at 1, self_. cbn [fst].
  unfold bind at 1, assign. cbn [fst snd].
  rewrite Hgen. unfold bind at 1.
  rewrite run_scenarios_unbound by exact Hu. reflexivity.
Qed.

End TestRun.

(** * Further properties of the analysis *)

Section Analysis.

Import Framework.

Lemma passed_count_fold rs n :
  fold_left (fun n r => if passed r then n + 1 else n) rs n
  = n + Z.of_nat (length (List.filter passed rs)).
Proof.
  revert n. induction rs as [|r rs IH]; intros n; cbn [fold_left List.filter].
  - cbn. lia.
  - rewrite IH. destruct (passed r); cbn [length]; lia.
Qed.

Lemma filter_split {A} (p : A -> bool) (l : list A) :
  (length (List.filter p l) + length (List.filter (fun x => negb (p x)) l))%nat
  = length l.
Proof.
  induction l as [|x l IH]; cbn; [reflexivity|].
  destruct (p x); cbn; lia.
Qed.

(** Two disjoint selections inside a third one are together no longer
    than it. *)
Lemma filter_disjoint_le {A} (p q r : A -> bool) (l : list A) :
  (forall x, p x = true -> r x = true) ->
  (forall x, q x = true -> r x = true) ->
  (forall x, p x = true -> q x = true -> False) ->
  (length (List.filter p l) + length (List.filter q l)
   <= length (List.filter r l))%nat.
Proof.
  intros Hp Hq Hpq. induction l as [|x l IH]; cbn; [lia|].
  specialize (Hp x). specialize (Hq x). specialize (Hpq x).
  destruct (p x), (q x), (r x); cbn; try lia;
    try (exfalso; auto; fail); try (discriminate Hp; reflexivity);
    try (discriminate Hq; reflexivity).
Qed.

(** X15: the counts of an analysis. [total] is the number of results,
    [passed] the number of results with [passed] set, [failed] the number
    of the others, which is the length of [get_failed_scenarios]; the
    over-permissive and over-restrictive lists select, in order, the failed
    results with expected "DENY" and observed "ALLOW", respectively
    expected "ALLOW" and observed "DENY", and together they are no more
    than [failed]. *)
Theorem analysis_counts :
  forall self : AuthorizationTestFramework,
    let a := analyze_results self in
    let rs := test_results self in
    total a = Z.of_nat (length rs)
    /\ passed_count a = Z.of_nat (length (List.filter passed rs))
    /\ failed a = Z.of_nat (length (get_failed_scenarios self))
    /\ total a = passed_count a + failed a
    /\ over_permissive a
       = List.filter
           (fun r => negb (passed r)
                     && (py_eq (expected r) "DENY"
                         && py_eq (actual r) "ALLOW")) rs
    /\ over_restrictive a
       = List.filter
           (fun r => negb (passed r)
                     && (py_eq (expected r) "ALLOW"
                         && py_eq (actual r) "DENY")) rs
    /\ Z.of_nat (length (over_permissive a))
       + Z.of_nat (length (over_restrictive a)) <= failed a.
Proof.
  intros self a rs. subst a rs. unfold analyze_results, get_failed_scenarios.
  cbn [total passed_count failed over_permissive over_restrictive].
  rewrite passed_count_fold, categorize_fold. cbn [fst snd app].
  pose proof (filter_split passed (test_results self)) as Hsplit.
  pose proof (filter_disjoint_le
                (fun r => negb (passed r)
                          && (py_eq (expected r) "DENY"
                              && py_eq (actual r) "ALLOW"))
                (fun r => negb (passed r)
                          && (py_eq (expected r) "ALLOW"
                              && py_eq (actual r) "DENY"))
                (fun r => negb (passed r)) (test_results self)) as Hle.
  assert (Hle' := Hle
    (fun x H => proj1 (proj1 (andb_true_iff _ _) H))
    (fun x H => proj1 (proj1 (andb_true_iff _ _) H))).
  clear Hle.
  assert (Hdisj : forall x : TestResult,
            negb (passed x)
            && (py_eq (expected x) "DENY" && py_eq (actual x) "ALLOW") = true ->
            negb (passed x)
            && (py_eq (expected x) "ALLOW" && py_eq (actual x) "DENY") = true ->
            False).
  { intros x. rewrite !andb_true_iff, !py_eq_true.
    intros (_ & He & _) (_ & He' & _). congruence. }
  specialize (Hle' Hdisj).
  repeat split; lia.
Qed.

Lemma group_total_insert (m : gmap string (list TestResult)) k v :
  group_total (<[k := v]> m) = (length v + group_total (delete k m))%nat.
Proof.
  rewrite <- insert_delete_eq. unfold group_total.
  rewrite map_fold_insert_L; [reflexivity | intros; lia |].
  apply lookup_delete_eq.
Qed.

Lemma group_total_lookup (m : gmap string (list TestResult)) k :
  group_total m
  = (length (default [] (m !! k)) + group_total (delete k m))%nat.
Proof.
  destruct (m !! k) as [l|] eqn:Hk; cbn [default length].
  - rewrite <- (insert_id m k l Hk) at 1. apply group_total_insert.
  - rewrite delete_id by assumption. reflexivity.
Qed.

(** One more failure is one more result in the groups. *)
Lemma group_by_total (key : TestResult -> string) rs
    (m : gmap string (list TestResult)) :
  group_total (fold_left (group_by key) rs m)
  = (group_total m
     + length (List.filter (fun r => negb (passed r)) rs))%nat.
Proof.
  revert m. induction rs as [|r rs IH]; intros m; cbn [fold_left List.filter].
  - cbn. lia.
  - rewrite IH. unfold group_by.
    destruct (passed r); cbn [negb length]; [reflexivity|].
    rewrite (group_total_lookup m (key r)).
    destruct (m !! key r) as [l|] eqn:Hk; cbn [default].
    + rewrite Hk. cbn [default]. rewrite group_total_insert, length_app.
      cbn. lia.
    + rewrite lookup_insert_eq. cbn [default app].
      rewrite insert_insert_eq, group_total_insert. cbn. lia.
Qed.

(** X16: the groups of an analysis. Under each audience the analysis
    holds, in order, the failed results of that audience, and it holds no
    empty group; the same goes for the actions. Each failed result is
    thus in exactly one group of each dimension, and the groups of a
    dimension hold together as many results as [failed]. *)
Theorem failure_groups_partition :
  forall (self : AuthorizationTestFramework) (k : string),
    let a := analyze_results self in
    let rs := test_results self in
    failures_by_audience a !! k
    = match failures_with (fun r => Policy.audience (scenario r)) k rs with
      | [] => None
      | group => Some group
      end
    /\ failures_by_action a !! k
       = match failures_with (fun r => Policy.action (scenario r)) k rs with
         | [] => None
         | group => Some group
         end
    /\ Z.of_nat (group_total (failures_by_audience a)) = failed a
    /\ Z.of_nat (group_total (failures_by_action a)) = failed a.
Proof.
  intros self k a rs. subst a rs. unfold analyze_results.
  cbn [failures_by_audience failures_by_action failed total passed_count].
  rewrite !group_by_fold, lookup_empty, !group_by_total, passed_count_fold.
  pose proof (filter_split passed (test_results self)) as Hsplit.
  assert (H0 : group_total ∅ = 0%nat) by reflexivity.
  rewrite H0. repeat split; lia.
Qed.

End Analysis.

(** * Further properties of the policy *)

Section PolicyOrder.

Import Policy.

Variable self : AuthorizationPolicy.

(** X17: the policy is monotone in its three flags: raising a flag from
    false to true never turns an "ALLOW" into a "DENY". *)
Theorem evaluate_monotone :
  forall audience visibility action io hc so io' hc' so',
    evaluate self audience visibility action io hc so = "ALLOW" ->
    evaluate self audience visibility action
      (io || io') (hc || hc') (so || so') = "ALLOW".
Proof.
  intros a v c io hc so io' hc' so'.
  rewrite !evaluate_five_rules. unfold five_rule_chain.
  destruct io, io', hc, hc', so, so', (py_eq a "owner"), (py_eq v "public"),
    (py_eq v "org_public"), (py_eq c "read"), (py_eq c "edit");
    cbn; intros H; first [reflexivity | discriminate H].
Qed.

(** X18: the order of the actions in the policy. Whoever is allowed to
    edit is allowed to read; and an action other than [read] and [edit]
    (so [delete] and [share]) is allowed to the owner only. *)
Theorem evaluate_action_order :
  forall audience visibility io hc so,
    (evaluate self audience visibility "edit" io hc so = "ALLOW" ->
     evaluate self audience visibility "read" io hc so = "ALLOW")
    /\ (forall action,
          action <> "read" -> action <> "edit" ->
          evaluate self audience visibility action io hc so = "ALLOW" ->
          io = true \/ audience = "owner").
Proof.
  intros a v io hc so. split.
  - rewrite !evaluate_five_rules. unfold five_rule_chain.
    destruct (io || py_eq a "owner"), (py_eq v "public"),
      (py_eq v "org_public"), hc, so; cbn;
      intros H; first [reflexivity | discriminate H].
  - intros c Hr He. apply py_eq_false in Hr, He.
    rewrite evaluate_five_rules. unfold five_rule_chain. rewrite Hr, He.
    destruct io; [auto|]. destruct (py_eq_spec a "owner"); [auto|].
    destruct (py_eq v "public"), (py_eq v "org_public"), hc, so; cbn;
      intros H; discriminate H.
Qed.

(** X19: the ground-truth table. A generated scenario expects "ALLOW"
    exactly when its audience is the owner, or it is a read of a public
    file, or a read of an org_public file by an org member, or a read or
    an edit of a private or a shared file by the collaborator. That makes
    24 scenarios out of 64: 16, 5, 2 and 1 for the four audiences, the
    numbers that [print_statistics] prints. *)
Theorem generated_expectations :
  Forall
    (fun s =>
       expected_result s = "ALLOW"
       <-> audience s = "owner"
           \/ (visibility s = "public" /\ action s = "read")
           \/ (audience s = "org_member" /\ visibility s = "org_public"
               /\ action s = "read")
           \/ (audience s = "collaborator"
               /\ (visibility s = "private" \/ visibility s = "shared")
               /\ (action s = "read" \/ action s = "edit")))
    (generate_all_scenarios self)
  /\ allow_count (generate_all_scenarios self) = 24
  /\ map (audience_allows (generate_all_scenarios self)) audiences
     = [16; 5; 2; 1].
Proof.
  rewrite generate_all_scenarios_eq.
  split; [|split; reflexivity].
  vm_compute number_from.
  repeat (apply Forall_cons; split;
          [cbn; split;
           [intros H; first [discriminate H | auto 10]
           | intros H; first [reflexivity | exfalso; intuition discriminate]]
          |]).
  constructor.
Qed.

End PolicyOrder.

(** * Further properties of the fixture set-up and of file creation *)

Section Creation.

Import Framework.

(** X20: against a subject that gives every request the same answer, an
    answer that the client can wrap but whose data hold no [user_id], the
    set-up stops with [KeyError('user_id')] once the four users have been
    requested; it binds no role and no visibility. *)
Theorem setup_without_identifiers :
  forall {W : Type} (r : Response) (wr : Client.Wrapped)
         (fields : list (string * json))
         (fw0 : AuthorizationTestFramework) (w : W),
    Client._wrap_response r w = (Returned wr, w) ->
    Client.data wr = JObj fields ->
    assoc "user_id" fields = None ->
    setup_test_fixtures (constant_subject r) (fw0, w)
    = (Raised (KeyError "user_id"), (fw0, w)).
Proof.
  intros W r wr fields fw0 w Hwrap Hdata Hnone.
  assert (Hcall : forall req,
            lift (S := AuthorizationTestFramework)
              (Client.call (constant_subject r) req) (fw0, w)
            = (Returned wr, (fw0, w))).
  { intros req. apply lift_returned.
    unfold Client.call, bind, constant_subject, ret. exact Hwrap. }
  unfold setup_test_fixtures, Client.reset, Client.create_user.
  do 5 (unfold bind at 1; rewrite Hcall).
  unfold bind at 1, getitem_str. rewrite Hdata, Hnone. reflexivity.
Qed.

(** X21: a user created with three non-empty attributes can create a file
    with a non-empty name and one of the four visibilities (both requests
    are answered with status 201, the identifiers being the next two that
    the server draws); the owner then reads back the content given at
    creation, and the store authorizes the owner for any action on the
    file. *)
Theorem created_file_is_readable_by_owner :
  forall (srv : Flask.Server) (e o n name vis content : string),
    let uid := Flask.uuid4 srv (Flask.drawn srv) in
    let fid := Flask.uuid4 srv (S (Flask.drawn srv)) in
    let srv1 := snd (Flask.handle (POST_users e o n) srv) in
    let srv2 := snd (Flask.handle (POST_files uid name vis content) srv1) in
    e <> EmptyString -> o <> EmptyString -> n <> EmptyString ->
    name <> EmptyString -> vis ∈ Policy.visibilities ->
    uid <> EmptyString ->
    status (fst (Flask.handle (POST_users e o n) srv)) = 201
    /\ status (fst (Flask.handle (POST_files uid name vis content) srv1))
       = 201
    /\ (exists wr,
          Client.get_file Flask.transport fid uid srv2 = (Returned wr, srv2)
          /\ Client.status_code wr = 200
          /\ content_of wr = Some (JStr content))
    /\ (forall a, authorizes (Flask.api srv2) fid uid a = true).
Proof.
  intros srv e o n name vis content uid fid srv1 srv2 He Ho Hn Hname Hvis
    Huid.
  assert (Hv : Flask.missing vis = false
               /\ py_in vis ["private"; "shared"; "org_public"; "public"]
                  = true).
  { unfold Policy.visibilities in Hvis.
    rewrite !elem_of_cons, elem_of_nil in Hvis.
    destruct Hvis as [-> | [-> | [-> | [-> | []]]]]; split; reflexivity. }
  destruct Hv as [Hmv Hin].
  apply py_eq_false in He, Ho, Hn, Hname, Huid.
  destruct srv as [s g d]. subst uid fid srv1 srv2.
  cbn [Flask.uuid4 Flask.drawn] in *.
  cbn [Flask.handle]. unfold Flask.create_user, Flask.create_file,
    Flask.missing in *.
  rewrite He, Ho, Hn. cbn [orb Store.create_user fst snd Flask.jsonify status
    Store.status_code Flask.uuid4 Flask.drawn Flask.api].
  rewrite Huid, Hname, Hmv. cbn [orb]. unfold Store.create_file.
  cbn [Store.users]. rewrite lookup_insert_eq, Hin.
  cbn [negb fst snd Flask.jsonify status Store.status_code Z.eqb Pos.eqb].
  split; [reflexivity|]. split; [reflexivity|].
  assert (Hc : forall a,
    Store._check_authorization (g (S d)) (g d) a
      {| Store.users :=
           <[g d := {| Store.u_user_id := g d; Store.u_email := e;
                       Store.u_organization_id := o; Store.u_name := n |}]>
             (Store.users s);
         Store.files :=
           <[g (S d) := {| Store.f_file_id := g (S d);
                           Store.f_owner_id := g d; Store.f_name := name;
                           Store.f_visibility := vis;
                           Store.f_content := content |}]> (Store.files s);
         Store.permissions := Store.permissions s;
         Store.organizations :=
           <[o := (match Store.organizations s !! o with
                   | Some l => l
                   | None => []
                   end ++ [g d])%list]> (Store.organizations s) |}
    = Returned true).
  { intros a. unfold Store._check_authorization. cbn [Store.users Store.files].
    rewrite !lookup_insert_eq. cbn [Store.f_owner_id].
    rewrite py_eq_refl. reflexivity. }
  split.
  - unfold Client.get_file, Client.call, bind, Flask.transport.
    cbn [Flask.handle]. unfold Flask.get_file, Flask.missing.
    rewrite Huid. unfold Flask.reply, Store.get_file, Store.authorized.
    cbn [Flask.api Store.files]. rewrite lookup_insert_eq, Hc.
    cbn. eexists. repeat split.
  - intros a. unfold authorizes. cbn [Flask.api]. rewrite Hc. reflexivity.
Qed.

(** The client against the server: a call returns the wrapped response and
    leaves the server in the state its view function produced. *)
Lemma client_call_flask req srv :
  exists wr,
    Client.call Flask.transport req srv
    = (Returned wr, snd (Flask.handle req srv))
    /\ forall fields,
         payload (fst (Flask.handle req srv)) = Json (JObj fields) ->
         Client.data wr = default (JObj []) (assoc "data" fields).
Proof.
  destruct (flask_call_returns req srv) as (wr & srv' & H).
  exists wr. revert H.
  unfold Client.call, bind, Flask.transport.
  destruct (Flask.handle req srv) as [resp s1]. cbn [fst snd].
  unfold Client._wrap_response.
  destruct (payload resp) as [[| | | | |fields]|t]; try discriminate.
  - intros [= <- <-]. split; [reflexivity|].
    intros fields' [= <-]. reflexivity.
  - intros [= <- <-]. split; [reflexivity|]. discriminate.
Qed.

Lemma handle_create_user e o n srv :
  Flask.missing e = false -> Flask.missing o = false ->
  Flask.missing n = false ->
  let srv' := snd (Flask.handle (POST_users e o n) srv) in
  (exists fields,
     payload (fst (Flask.handle (POST_users e o n) srv))
     = Json (JObj fields)
     /\ assoc "data" fields
        = Some (JObj [("user_id", JStr (Flask.uuid4 srv (Flask.drawn srv)));
                      ("email", JStr e)]))
  /\ Flask.uuid4 srv' = Flask.uuid4 srv
  /\ Flask.drawn srv' = S (Flask.drawn srv)
  /\ Store.files (Flask.api srv') = Store.files (Flask.api srv)
  /\ Store.permissions (Flask.api srv') = Store.permissions (Flask.api srv)
  /\ (forall k,
        k = Flask.uuid4 srv (Flask.drawn srv)
        \/ is_Some (Store.users (Flask.api srv) !! k) ->
        is_Some (Store.users (Flask.api srv') !! k)).
Proof.
  intros He Ho Hn. cbn [Flask.handle]. unfold Flask.create_user.
  rewrite He, Ho, Hn. cbn -[lookup insert].
  split; [eexists; split; reflexivity|]. repeat split.
  intros k Hk. apply lookup_insert_is_Some'.
  destruct Hk as [-> | Hk]; auto.
Qed.

Lemma handle_create_file owner name vis content srv :
  Flask.missing owner = false -> Flask.missing name = false ->
  Flask.missing vis = false ->
  py_in vis ["private"; "shared"; "org_public"; "public"] = true ->
  is_Some (Store.users (Flask.api srv) !! owner) ->
  let srv' := snd (Flask.handle (POST_files owner name vis content) srv) in
  (exists fields,
     payload (fst (Flask.handle (POST_files owner name vis content) srv))
     = Json (JObj fields)
     /\ assoc "data" fields
        = Some (JObj [("file_id", JStr (Flask.uuid4 srv (Flask.drawn srv)));
                      ("name", JStr name); ("visibility", JStr vis)]))
  /\ Flask.uuid4 srv' = Flask.uuid4 srv
  /\ Flask.drawn srv' = S (Flask.drawn srv)
  /\ Store.users (Flask.api srv') = Store.users (Flask.api srv)
  /\ Store.permissions (Flask.api srv') = Store.permissions (Flask.api srv)
  /\ Store.files (Flask.api srv')
     = <[Flask.uuid4 srv (Flask.drawn srv) :=
           {| Store.f_file_id := Flask.uuid4 srv (Flask.drawn srv);
              Store.f_owner_id := owner; Store.f_name := name;
              Store.f_visibility := vis; Store.f_content := content |}]>
         (Store.files (Flask.api srv)).
Proof.
  intros Ho Hn Hv Hin [u Hu]. cbn [Flask.handle]. unfold Flask.create_file.
  rewrite Ho, Hn, Hv. cbn [orb]. unfold Store.create_file. rewrite Hu, Hin.
  cbn -[lookup insert].
  split; [eexists; split; reflexivity|]. repeat split.
Qed.

Lemma handle_share_by_owner f u t p srv file :
  Flask.missing u = false -> Flask.missing t = false ->
  Store.files (Flask.api srv) !! f = Some file ->
  Store.f_owner_id file = u ->
  is_Some (Store.users (Flask.api srv) !! u) ->
  is_Some (Store.users (Flask.api srv) !! t) ->
  let srv' := snd (Flask.handle (POST_share f u t p) srv) in
  Store.users (Flask.api srv') = Store.users (Flask.api srv)
  /\ Store.files (Flask.api srv') = Store.files (Flask.api srv)
  /\ Store.permissions (Flask.api srv')
     = <[(f, t) := {| Store.p_file_id := f; Store.p_user_id := t;
                      Store.p_permission_type := p |}]>
         (Store.permissions (Flask.api srv)).
Proof.
  intros Hu Ht Hf Ho [user Huser] [target Htarget].
  cbn [Flask.handle]. unfold Flask.share_file, Flask.reply,
    Store.share_file, Store.authorized, Store._check_authorization.
  rewrite Hu, Ht, Hf, Htarget, Huser, Ho, py_eq_refl.
  cbn. repeat split.
Qed.

(** One client call of the set-up: the call returns, and the server moves
    to the state that its view function produced. *)
Ltac client_step req s wr s' E D :=
  destruct (client_call_flask req s) as (wr & E & D);
  set (s' := snd (Flask.handle req s)) in *;
  erewrite bind_returned by (apply lift_returned; exact E).

(** X22: what the set-up leaves on the server. When the first two
    identifiers that the server draws are not empty, the set-up completes;
    afterwards the store holds exactly two permissions, both of type
    [edit] and both for the collaborator: one on the file bound to
    [shared] and one on the file bound to [private]; the four fixture
    files exist and every file of the store belongs to the owner. *)
Theorem setup_grants_collaborator_edit :
  forall (fw0 : AuthorizationTestFramework) (srv0 : Flask.Server),
    let g := Flask.uuid4 srv0 in
    let d := Flask.drawn srv0 in
    g d <> EmptyString ->
    g (1 + d)%nat <> EmptyString ->
    exists fw srv,
      setup_test_fixtures Flask.transport (fw0, srv0)
      = (Returned tt, (fw, srv))
      /\ users fw !! "owner" = Some (g d)
      /\ users fw !! "collaborator" = Some (g (1 + d)%nat)
      /\ files fw !! "private" = Some (g (4 + d)%nat)
      /\ files fw !! "shared" = Some (g (5 + d)%nat)
      /\ (forall v id,
            files fw !! v = Some id ->
            is_Some (Store.files (Flask.api srv) !! id))
      /\ (forall k file,
            Store.files (Flask.api srv) !! k = Some file ->
            Store.f_owner_id file = g d)
      /\ (forall f u p,
            Store.permissions (Flask.api srv) !! (f, u) = Some p
            <-> (f = g (4 + d)%nat \/ f = g (5 + d)%nat)
                /\ u = g (1 + d)%nat
                /\ p = {| Store.p_file_id := f; Store.p_user_id := u;
                          Store.p_permission_type := "edit" |}).
Proof.
  intros fw0 srv0 g d Hne Hne1.
  apply py_eq_false in Hne, Hne1.
  unfold setup_test_fixtures, Client.reset, Client.create_user,
    Client.create_file, Client.share_file.
  (* reset *)
  client_step POST_reset srv0 wr0 s0 E0 D0.  clear E0 D0.
  assert (I0 : Flask.uuid4 s0 = g /\ Flask.drawn s0 = d
               /\ Store.files (Flask.api s0) = ∅
               /\ Store.permissions (Flask.api s0) = ∅)
    by (subst s0; cbn; auto).
  destruct I0 as (Hg0 & Hd0 & Hf0 & Hp0). clearbody s0.
  (* the four users *)
  client_step (POST_users "owner@acme.com" "org-acme" "Test Owner")
    s0 w1 s1 E1 D1.
  destruct (handle_create_user "owner@acme.com" "org-acme" "Test Owner" s0
              eq_refl eq_refl eq_refl)
    as ((fs1 & P1 & A1) & Hg1 & Hd1 & Hf1 & Hp1 & Hu1).
  fold s1 in Hg1, Hd1, Hf1, Hp1, Hu1. rewrite (D1 _ P1), A1.
  clear E1 D1 P1 A1. clearbody s1.
  client_step (POST_users "collab@acme.com" "org-acme" "Test Collaborator")
    s1 w2 s2 E2 D2.
  destruct (handle_create_user "collab@acme.com" "org-acme"
              "Test Collaborator" s1 eq_refl eq_refl eq_refl)
    as ((fs2 & P2 & A2) & Hg2 & Hd2 & Hf2 & Hp2 & Hu2).
  fold s2 in Hg2, Hd2, Hf2, Hp2, Hu2. rewrite (D2 _ P2), A2.
  clear E2 D2 P2 A2. clearbody s2.
  client_step (POST_users "orgmember@acme.com" "org-acme" "Test OrgMember")
    s2 w3 s3 E3 D3.
  destruct (handle_create_user "orgmember@acme.com" "org-acme"
              "Test OrgMember" s2 eq_refl eq_refl eq_refl)
    as ((fs3 & P3 & A3) & Hg3 & Hd3 & Hf3 & Hp3 & Hu3).
  fold s3 in Hg3, Hd3, Hf3, Hp3, Hu3. rewrite (D3 _ P3), A3.
  clear E3 D3 P3 A3. clearbody s3.
  client_step (POST_users "external@other.com" "org-external" "Test External")
    s3 w4 s4 E4 D4.
  destruct (handle_create_user "external@other.com" "org-external"
              "Test External" s3 eq_refl eq_refl eq_refl)
    as ((fs4 & P4 & A4) & Hg4 & Hd4 & Hf4 & Hp4 & Hu4).
  fold s4 in Hg4, Hd4, Hf4, Hp4, Hu4. rewrite (D4 _ P4), A4.
  clear E4 D4 P4 A4. clearbody s4.
  rewrite Hg3, Hg2, Hg1, Hg0 in *. rewrite Hd3, Hd2, Hd1, Hd0 in *.
  assert (Uo : is_Some (Store.users (Flask.api s4) !! g d)) by auto 10.
  assert (Uc : is_Some (Store.users (Flask.api s4) !! g (S d))) by auto 10.
  assert (F4 : Store.files (Flask.api s4) = ∅) by congruence.
  assert (Q4 : Store.permissions (Flask.api s4) = ∅) by congruence.
  clear Hu1 Hu2 Hu3 Hu4 Hf1 Hf2 Hf3 Hf4 Hp1 Hp2 Hp3 Hp4 Hf0 Hp0.
  cbn -[lookup insert].
  match goal with |- context [set_users fw0 ?m] => set (U := m) end.
  unfold bind at 1, getitem.
  replace (U !! "owner") with (Some (g d)) by reflexivity.
  cbn [ret].
  (* the four files *)
  client_step (POST_files (g d) "test-private.txt" "private"
                 "Private content") s4 w5 s5 E5 D5.
  destruct (handle_create_file (g d) "test-private.txt" "private"
              "Private content" s4 Hne eq_refl eq_refl eq_refl Uo)
    as ((fs5 & P5 & A5) & Hg5 & Hd5 & Hu5 & Hp5 & Hf5).
  fold s5 in Hg5, Hd5, Hu5, Hp5, Hf5. rewrite (D5 _ P5), A5.
  rewrite <- Hu5 in Uo, Uc. clear E5 D5 P5 A5 Hu5. clearbody s5.
  client_step (POST_files (g d) "test-shared.txt" "shared"
                 "Shared content") s5 w6 s6 E6 D6.
  destruct (handle_create_file (g d) "test-shared.txt" "shared"
              "Shared content" s5 Hne eq_refl eq_refl eq_refl Uo)
    as ((fs6 & P6 & A6) & Hg6 & Hd6 & Hu6 & Hp6 & Hf6).
  fold s6 in Hg6, Hd6, Hu6, Hp6, Hf6. rewrite (D6 _ P6), A6.
  rewrite <- Hu6 in Uo, Uc. clear E6 D6 P6 A6 Hu6. clearbody s6.
  client_step (POST_files (g d) "test-org.txt" "org_public"
                 "Org content") s6 w7 s7 E7 D7.
  destruct (handle_create_file (g d) "test-org.txt" "org_public"
              "Org content" s6 Hne eq_refl eq_refl eq_refl Uo)
    as ((fs7 & P7 & A7) & Hg7 & Hd7 & Hu7 & Hp7 & Hf7).
  fold s7 in Hg7, Hd7, Hu7, Hp7, Hf7. rewrite (D7 _ P7), A7.
  rewrite <- Hu7 in Uo, Uc. clear E7 D7 P7 A7 Hu7. clearbody s7.
  client_step (POST_files (g d) "test-public.txt" "public"
                 "Public content") s7 w8 s8 E8 D8.
  destruct (handle_create_file (g d) "test-public.txt" "public"
              "Public content" s7 Hne eq_refl eq_refl eq_refl Uo)
    as ((fs8 & P8 & A8) & Hg8 & Hd8 & Hu8 & Hp8 & Hf8).
  fold s8 in Hg8, Hd8, Hu8, Hp8, Hf8. rewrite (D8 _ P8), A8.
  rewrite <- Hu8 in Uo, Uc. clear E8 D8 P8 A8 Hu8. clearbody s8.
  rewrite Hg7, Hg6, Hg5, Hg4 in *. rewrite Hd7, Hd6, Hd5, Hd4 in *.
  rewrite Hf7, Hf6, Hf5, F4 in Hf8. clear Hf7 Hf6 Hf5 F4.
  assert (Q8 : Store.permissions (Flask.api s8) = ∅) by congruence.
  clear Hp5 Hp6 Hp7 Hp8 Q4.
  assert (Hown : forall k file,
            Store.files (Flask.api s8) !! k = Some file ->
            Store.f_owner_id file = g d).
  { intros k file. rewrite Hf8, !lookup_insert_Some, lookup_empty.
    intros [[_ <-] | [_ [[_ <-] | [_ [[_ <-] | [_ [[_ <-] | [_ H]]]]]]]];
      [reflexivity.. | discriminate H]. }
  assert (Hex : forall k,
            k = g (4 + d)%nat \/ k = g (5 + d)%nat \/ k = g (6 + d)%nat
            \/ k = g (7 + d)%nat ->
            is_Some (Store.files (Flask.api s8) !! k)).
  { intros k Hk. rewrite Hf8, !lookup_insert_is_Some'.
    destruct Hk as [-> | [-> | [-> | ->]]]; auto 10. }
  clear Hf8.
  cbn -[lookup insert U].
  match goal with |- context [set_files _ ?m] => set (F := m) end.
  replace (U !! "collaborator") with (Some (g (S d))) by reflexivity.
  replace (F !! "shared") with (Some (g (5 + d)%nat)) by reflexivity.
  replace (F !! "private") with (Some (g (4 + d)%nat)) by reflexivity.
  cbn [ret].
  unfold bind at 1. cbn [ret]. unfold bind at 1. cbn [ret].
  (* the two grants *)
  destruct (Hex (g (5 + d)%nat)) as [file5 Hfile5]; [auto|].
  client_step (POST_share (g (5 + d)%nat) (g d) (g (S d)) "edit")
    s8 w9 s9 E9 D9.
  destruct (handle_share_by_owner (g (5 + d)%nat) (g d) (g (S d)) "edit" s8
              file5 Hne Hne1 Hfile5 (Hown _ _ Hfile5) Uo Uc)
    as (Hu9 & Hf9 & Hp9).
  fold s9 in Hu9, Hf9, Hp9. rewrite <- Hu9 in Uo, Uc.
  rewrite <- Hf9 in Hown, Hex. rewrite Q8 in Hp9.
  clear E9 D9 Hu9 Hf9 Q8 Hfile5. clearbody s9.
  unfold bind at 1. cbn [ret].
  destruct (Hex (g (4 + d)%nat)) as [file4 Hfile4]; [auto|].
  client_step (POST_share (g (4 + d)%nat) (g d) (g (S d)) "edit")
    s9 w10 s10 E10 D10.
  destruct (handle_share_by_owner (g (4 + d)%nat) (g d) (g (S d)) "edit" s9
              file4 Hne Hne1 Hfile4 (Hown _ _ Hfile4) Uo Uc)
    as (Hu10 & Hf10 & Hp10).
  fold s10 in Hu10, Hf10, Hp10.
  rewrite <- Hf10 in Hown, Hex. rewrite Hp9 in Hp10.
  clear E10 D10 Hu10 Hf10 Hp9 Hfile4. clearbody s10.
  exists (set_files (set_users fw0 U) F), s10.
  split; [reflexivity|].
  do 4 (split; [reflexivity|]).
  split.
  { intros v id Hv. apply Hex.
    subst F. cbn [files set_files] in Hv.
    rewrite !lookup_insert_Some, lookup_empty in Hv.
    destruct Hv as [[_ <-] | [_ [[_ <-] | [_ [[_ <-] | [_ [[_ <-] | [_ H]]]]]]]];
      [auto.. | discriminate H]. }
  split; [exact Hown|].
  intros f u p. rewrite Hp10, !lookup_insert_Some, lookup_empty.
  split.
  - intros [[[= <- <-] <-] | [_ [[[= <- <-] <-] | [_ H]]]];
      [auto | auto | discriminate H].
  - intros ([-> | ->] & -> & ->).
    + left. split; reflexivity.
    + destruct (decide (g (4 + d)%nat = g (5 + d)%nat)) as [Heq|Hneq].
      * left. rewrite Heq. split; reflexivity.
      * right. split; [intros [= H]; exact (Hneq H)|].
        left. split; reflexivity.
Qed.

End Creation.

(** * The demonstration against the framework *)

Section Demonstration.

Import Framework.

(** X23: for a [read], a [delete] and a [share], the demonstration sends
    the same request as the framework (the share target being the
    identifier bound to [external]) and leaves the subject in the same
    state, but it has only two outcomes: where the framework observes
    "ERROR" the demonstration observes "DENY", and otherwise the two
    agree. An exception raised by the subject leaves both the same way. *)
Theorem demo_folds_error_into_deny :
  forall {W : Type} (send : Request -> M W Response)
         (self : AuthorizationTestFramework) (f u a e : string) (w : W),
    a = "read" \/ a = "delete" \/ a = "share" ->
    users self !! "external" = Some e ->
    match execute_api_action send self f u a w,
          Demo.response_status send f u a e w with
    | (Returned d, w1), (Returned (Some code), w2) =>
        w1 = w2
        /\ Demo.actual code = (if py_eq d "ERROR" then "DENY" else d)
    | (Raised x, w1), (Raised y, w2) => x = y /\ w1 = w2
    | _, _ => False
    end.
Proof.
  intros W send self f u a e w Ha He.
  unfold execute_api_action, Demo.response_status, getitem. rewrite He.
  unfold Client.get_file, Client.share_file, Client.check_authorization,
    Client.call, bind, ret.
  destruct Ha as [-> | [-> | ->]];
    cbn [py_eq String.eqb Ascii.eqb Bool.eqb];
    match goal with
    | |- context [send ?req w] =>
        destruct (send req w) as [[r|x] w']; [|split; reflexivity]
    end.
  - unfold Client._wrap_response.
    destruct (payload r) as [[| | | | |fields]|t]; try (split; reflexivity);
      unfold ret, raise, normalize, Demo.actual;
      cbn [Client.status_code existsb]; rewrite ?orb_false_r;
      try (split; reflexivity);
      destruct (status r =? 200), (status r =? 201), (status r =? 403);
      split; reflexivity.
  - destruct (payload r) as [[| | | | |fields]|t]; try (split; reflexivity).
    destruct (truthy _); split; reflexivity.
  - unfold Client._wrap_response.
    destruct (payload r) as [[| | | | |fields]|t]; try (split; reflexivity);
      unfold ret, raise, normalize, Demo.actual;
      cbn [Client.status_code existsb]; rewrite ?orb_false_r;
      try (split; reflexivity);
      destruct (status r =? 200), (status r =? 201), (status r =? 403);
      split; reflexivity.
Qed.

End Demonstration.

(** * Instances on the sample server *)

Lemma delete_removes_file_and_its_permissions_witness :
  status (fst (Flask.handle (DELETE_file "uuid-4" "uuid-0") sample_subject))
  = 200
  /\ Store.files
       (Flask.api
          (snd (Flask.handle (DELETE_file "uuid-4" "uuid-0") sample_subject)))
     !! "uuid-4" = None.
Proof.
  split; [vm_compute; reflexivity|].
  apply (delete_removes_file_and_its_permissions "uuid-4" "uuid-0"
           sample_subject).
  vm_compute. reflexivity.
Defined.

Lemma update_then_get_returns_content_witness :
  exists wr,
    Client.get_file Flask.transport "uuid-5" "uuid-1"
      (snd (Flask.handle (PUT_file "uuid-5" "uuid-1" "draft") sample_subject))
    = (Returned wr,
       snd (Flask.handle (PUT_file "uuid-5" "uuid-1" "draft") sample_subject))
    /\ Client.status_code wr = 200
    /\ content_of wr = Some (JStr "draft").
Proof.
  apply (update_then_get_returns_content "uuid-5" "uuid-1" "draft"
           sample_subject).
  vm_compute. reflexivity.
Defined.

Lemma permission_on_org_public_file_is_ignored_witness :
  is_Some
    (Store.permissions
       (Flask.api
          (snd (Flask.handle (POST_share "uuid-6" "uuid-0" "uuid-3" "read")
                  sample_subject)))
     !! ("uuid-6", "uuid-3"))
  /\ status
       (fst (Flask.handle (GET_file "uuid-6" "uuid-3")
               (snd (Flask.handle
                       (POST_share "uuid-6" "uuid-0" "uuid-3" "read")
                       sample_subject))))
     = 403.
Proof.
  eapply (permission_on_org_public_file_is_ignored "uuid-6" "uuid-0" "uuid-3"
            "read" sample_subject).
  - vm_compute. reflexivity.
  - reflexivity.
  - vm_compute. reflexivity.
  - vm_compute. reflexivity.
  - discriminate.
  - discriminate.
  - vm_compute. reflexivity.
Defined.

Lemma granted_permission_allows_edit_and_share_witness :
  status
    (fst (Flask.handle (PUT_file "uuid-4" "uuid-2" "overwritten")
            (snd (Flask.handle
                    (POST_share "uuid-4" "uuid-0" "uuid-2" "read")
                    sample_subject))))
  = 200.
Proof.
  eapply (proj1 (proj2
    (granted_permission_allows_edit_and_share "uuid-4" "uuid-0" "uuid-2"
       "read" sample_subject _ _ _ _ _ _ _ _))).
  Unshelve.
  all: try (vm_compute; reflexivity); try discriminate.
Defined.

Lemma store_against_policy_witness :
  Store._check_authorization "uuid-7" "uuid-3" "edit" (Flask.api sample_subject)
  = Returned true
  /\ Policy.evaluate Policy.init "external" "public" "edit" false false false
     = "DENY".
Proof.
  destruct (store_against_policy Policy.init (Flask.api sample_subject)
              "uuid-7" "uuid-3" "edit" "external"
              {| Store.f_file_id := "uuid-7"; Store.f_owner_id := "uuid-0";
                 Store.f_name := "test-public.txt";
                 Store.f_visibility := "public";
                 Store.f_content := "Public content" |}
              {| Store.u_user_id := "uuid-3";
                 Store.u_email := "external@other.com";
                 Store.u_organization_id := "org-external";
                 Store.u_name := "Test External" |}
              {| Store.u_user_id := "uuid-0";
                 Store.u_email := "owner@acme.com";
                 Store.u_organization_id := "org-acme";
                 Store.u_name := "Test Owner" |})
    as [Hstore Hpolicy].
  - vm_compute. reflexivity.
  - vm_compute. reflexivity.
  - vm_compute. reflexivity.
  - discriminate.
  - intros perm H. vm_compute in H. discriminate H.
  - split; [exact Hstore | apply Hpolicy; reflexivity].
Defined.


Lemma run_all_tests_covers_every_scenario_witness :
  exists results srv',
    Framework.run_all_tests Flask.transport (sample_fixtures, sample_subject)
    = (Returned results,
       (Framework.set_test_results sample_fixtures results, srv'))
    /\ length results = 64%nat
    /\ map Framework.scenario results
       = Policy.generate_all_scenarios (Framework.policy sample_fixtures)
    /\ Forall
         (fun r =>
            Framework.scenario_id r
            = Policy.scenario_id (Framework.scenario r)
            /\ Framework.expected r
               = Policy.expected_result (Framework.scenario r)
            /\ Framework.passed r
               = py_eq (Framework.expected r) (Framework.actual r)) results.
Proof.
  apply (run_all_tests_covers_every_scenario sample_fixtures sample_subject).
  - repeat constructor; vm_compute; eexists; reflexivity.
  - repeat constructor; vm_compute; eexists; reflexivity.
Defined.

Lemma run_all_tests_without_owner_witness :
  Framework.run_all_tests unavailable (Framework.init, tt)
  = (Raised (KeyError "owner"),
     (Framework.set_test_results Framework.init [], tt)).
Proof.
  apply (run_all_tests_without_owner unavailable Framework.init tt).
  reflexivity.
Defined.

Lemma evaluate_monotone_witness :
  Policy.evaluate Policy.init "org_member" "org_public" "read"
    false false true = "ALLOW"
  /\ Policy.evaluate Policy.init "org_member" "org_public" "read"
       (false || true) (false || true) (true || false) = "ALLOW".
Proof.
  split; [reflexivity|].
  apply (evaluate_monotone Policy.init "org_member" "org_public" "read"
           false false true true true false).
  reflexivity.
Defined.

Lemma setup_without_identifiers_witness :
  Framework.setup_test_fixtures
    (constant_subject
       {| status := 503; payload := Text "Service Unavailable" |})
    (Framework.init, tt)
  = (Raised (KeyError "user_id"), (Framework.init, tt)).
Proof.
  apply (setup_without_identifiers
           {| status := 503; payload := Text "Service Unavailable" |}
           {| Client.status_code := 503;
              Client.data := JObj [];
              Client.message := JStr "Service Unavailable";
              Client.raw := JObj [("message", JStr "Service Unavailable")] |}
           [] Framework.init tt); reflexivity.
Defined.

Lemma created_file_is_readable_by_owner_witness :
  exists wr,
    Client.get_file Flask.transport "uuid-1" "uuid-0"
      (serve [POST_users "ann@acme.com" "org-acme" "Ann";
              POST_files "uuid-0" "notes.txt" "shared" "first draft"]
         (started sample_uuid4))
    = (Returned wr,
       serve [POST_users "ann@acme.com" "org-acme" "Ann";
              POST_files "uuid-0" "notes.txt" "shared" "first draft"]
         (started sample_uuid4))
    /\ Client.status_code wr = 200
    /\ content_of wr = Some (JStr "first draft").
Proof.
  apply (created_file_is_readable_by_owner (started sample_uuid4)
           "ann@acme.com" "org-acme" "Ann" "notes.txt" "shared"
           "first draft"); try discriminate.
  unfold Policy.visibilities. in_list.
Defined.

Lemma setup_grants_collaborator_edit_witness :
  exists fw srv,
    Framework.setup_test_fixtures Flask.transport
      (Framework.init, sample_server)
    = (Returned tt, (fw, srv))
    /\ Framework.users fw !! "owner" = Some "uuid-0"
    /\ Framework.users fw !! "collaborator" = Some "uuid-1"
    /\ Framework.files fw !! "private" = Some "uuid-4"
    /\ Framework.files fw !! "shared" = Some "uuid-5"
    /\ (forall v id,
          Framework.files fw !! v = Some id ->
          is_Some (Store.files (Flask.api srv) !! id))
    /\ (forall k file,
          Store.files (Flask.api srv) !! k = Some file ->
          Store.f_owner_id file = "uuid-0")
    /\ (forall f u p,
          Store.permissions (Flask.api srv) !! (f, u) = Some p
          <-> (f = "uuid-4" \/ f = "uuid-5")
              /\ u = "uuid-1"
              /\ p = {| Store.p_file_id := f; Store.p_user_id := u;
                        Store.p_permission_type := "edit" |}).
Proof.
  apply (setup_grants_collaborator_edit Framework.init sample_server);
    discriminate.
Defined.

Lemma demo_folds_error_into_deny_witness :
  match Framework.execute_api_action unavailable sample_fixtures
          "uuid-4" "uuid-3" "read" tt,
        Demo.response_status unavailable "uuid-4" "uuid-3" "read" "uuid-3" tt
  with
  | (Returned d, w1), (Returned (Some code), w2) =>
      w1 = w2
      /\ Demo.actual code = (if py_eq d "ERROR" then "DENY" else d)
  | (Raised x, w1), (Raised y, w2) => x = y /\ w1 = w2
  | _, _ => False
  end.
Proof.
  apply (demo_folds_error_into_deny unavailable sample_fixtures
           "uuid-4" "uuid-3" "read" "uuid-3" tt).
  - left. reflexivity.
  - vm_compute. reflexivity.
Defined.
